(** * Audio quality metrics of [quality_comparison.py]

    A shallow embedding of the class [AudioQualityAnalyzer]
    (examples/world4utau/examples/quality_comparison.py, lines 32-136)
    and the properties of its metric methods.

    Numeric model.  Samples are real numbers ([R]); the arithmetic of
    numpy on finite values is the exact arithmetic of [R].  What the code
    observably does with the special values is kept: a numpy scalar is an
    [npfloat], which is a finite real, one of the two infinities or NaN,
    and the numpy functions the methods call ([np.mean], [np.sqrt],
    [np.log10], [np.max], [np.fft.fft], ...) produce NaN, an infinity or a
    Python exception exactly where numpy does on such values.

    Rounding.  The program computes in binary floating point, so a value
    it returns is the value of the model up to rounding.  Where a square
    overflows or underflows, the program and the model differ in kind
    (NaN or an infinity against a real number, 0.0 against a number that
    is not zero).  The statements that this decides are made for samples
    [in_range], sample rates that are [usual_rate] and frequencies
    [in_band]; what the program does beyond them is shown on primitive
    floats, in the module [float64].

    Object model.  A method runs in a small state-and-exception monad over
    the attribute store of [self]; the store has the one attribute the
    class ever assigns, [sample_rate]. *)

From Stdlib Require Import Reals Lra Lia List ZArith Bool.
From Stdlib Require Floats Uint63 String DecimalString.
Import String.StringSyntax.
Import ListNotations.
Delimit Scope string_scope with str.

(** ** Python values and exceptions *)

(** Where a [ValueError] comes from. *)
Inductive value_error : Type :=
| ZeroSizeReduction      (* np.max / np.min / np.argmin of an empty array *)
| InvalidFFTLength       (* np.fft.fft of an empty array *)
| RangeStepZero          (* range() arg 3 must not be zero *)
| PearsonLengthMismatch  (* pearsonr: x and y must have the same length *)
| PearsonTooShort.       (* pearsonr: x and y must have length at least 2 *)

Inductive exn : Type :=
| ValueError (why : value_error)
| ZeroDivisionError
| InputShapeError.       (* the length-mismatch error of the specification;
                            no statement of the class raises it *)

Inductive result (A : Type) : Type :=
| Ok (a : A)
| Raise (e : exn).

Arguments Ok {A} a.
Arguments Raise {A} e.

(** A numpy double: finite, infinite or NaN. *)
Inductive npfloat : Type :=
| Fin (r : R)
| PosInf
| NegInf
| NaN.

Open Scope R_scope.

(** ** The numpy functions the methods use *)

Module np.

(** [a ** 2], elementwise. *)
Definition square (a : list R) : list R := map (fun x => x * x) a.

(** [np.abs(a)], elementwise. *)
Definition abs (a : list R) : list R := map Rabs a.

(** [np.sum(a)]. *)
Fixpoint sum (a : list R) : R :=
  match a with
  | [] => 0
  | x :: a' => x + sum a'
  end.

(** [np.mean(a)]: the sum over the number of elements; the mean of an
    empty array is NaN (numpy warns and returns nan). *)
Definition mean (a : list R) : npfloat :=
  match a with
  | [] => NaN
  | _ :: _ => Fin (sum a / INR (length a))
  end.

(** [np.sqrt(x)]: NaN below zero. *)
Definition sqrt (x : npfloat) : npfloat :=
  match x with
  | Fin r => if Rlt_dec r 0 then NaN else Fin (R_sqrt.sqrt r)
  | PosInf => PosInf
  | NegInf => NaN
  | NaN => NaN
  end.

(** The decimal logarithm of a positive real. *)
Definition Rlog10 (r : R) : R := ln r / ln 10.

(** [np.log10(x)]: minus infinity at zero, NaN below zero. *)
Definition log10 (x : npfloat) : npfloat :=
  match x with
  | Fin r =>
      if Rlt_dec r 0 then NaN
      else if Req_dec_T r 0 then NegInf
      else Fin (Rlog10 r)
  | PosInf => PosInf
  | NegInf => NaN
  | NaN => NaN
  end.

(** [k * x] for a positive Python number [k]. *)
Definition scale (k : R) (x : npfloat) : npfloat :=
  match x with
  | Fin r => Fin (k * r)
  | PosInf => PosInf
  | NegInf => NegInf
  | NaN => NaN
  end.

(** [x / y] on numpy scalars: a finite quotient where the divisor is a
    non-zero real; division of a finite value by zero gives a signed
    infinity, or NaN for 0/0; anything with NaN is NaN. *)
Definition div (x y : npfloat) : npfloat :=
  match x, y with
  | NaN, _ | _, NaN => NaN
  | Fin a, Fin b =>
      if Req_dec_T b 0 then
        (if Rlt_dec 0 a then PosInf else if Rlt_dec a 0 then NegInf else NaN)
      else Fin (a / b)
  | Fin _, (PosInf | NegInf) => Fin 0
  | PosInf, Fin b => if Rlt_dec b 0 then NegInf else PosInf
  | NegInf, Fin b => if Rlt_dec b 0 then PosInf else NegInf
  | (PosInf | NegInf), (PosInf | NegInf) => NaN
  end.

(** [x == 0]. *)
Definition eq0 (x : npfloat) : bool :=
  match x with
  | Fin r => if Req_dec_T r 0 then true else false
  | _ => false
  end.

(** [x > 0]. *)
Definition gt0 (x : npfloat) : bool :=
  match x with
  | Fin r => if Rlt_dec 0 r then true else false
  | PosInf => true
  | _ => false
  end.

(** The largest and the smallest element of a non-empty array, scanning
    from the left. *)
Fixpoint max_from (m : R) (a : list R) : R :=
  match a with
  | [] => m
  | x :: a' => max_from (Rmax m x) a'
  end.

Fixpoint min_from (m : R) (a : list R) : R :=
  match a with
  | [] => m
  | x :: a' => min_from (Rmin m x) a'
  end.

(** [np.max(a)] and [np.min(a)]: a zero-size array has no maximum. *)
Definition max (a : list R) : result R :=
  match a with
  | [] => Raise (ValueError ZeroSizeReduction)
  | x :: a' => Ok (max_from x a')
  end.

Definition min (a : list R) : result R :=
  match a with
  | [] => Raise (ValueError ZeroSizeReduction)
  | x :: a' => Ok (min_from x a')
  end.

(** [np.argmin(a)]: the first index of the smallest element.  [best] is
    the index of the smallest element seen so far, [m] its value, [i] the
    index of the head of the rest. *)
Fixpoint argmin_from (best : nat) (m : R) (i : nat) (a : list R) : nat :=
  match a with
  | [] => best
  | x :: a' =>
      if Rlt_dec x m then argmin_from i x (S i) a'
      else argmin_from best m (S i) a'
  end.

Definition argmin (a : list R) : result nat :=
  match a with
  | [] => Raise (ValueError ZeroSizeReduction)
  | x :: a' => Ok (argmin_from 0%nat x 1%nat a')
  end.

End np.

(** The order on numpy scalars: every comparison with NaN is false. *)
Definition np_le (x y : npfloat) : Prop :=
  match x, y with
  | NaN, _ | _, NaN => False
  | NegInf, _ => True
  | _, PosInf => True
  | Fin a, Fin b => a <= b
  | PosInf, _ => False
  | Fin _, NegInf => False
  end.

(** ** The object and its methods *)

(** The attributes of an [AudioQualityAnalyzer] instance. *)
Record AudioQualityAnalyzer : Type := { sample_rate : Z }.

(** A method body: it starts from the attributes of [self] and ends with a
    value or an exception, and with the attributes of [self] after it. *)
Definition method (A : Type) : Type :=
  AudioQualityAnalyzer -> result A * AudioQualityAnalyzer.

Definition ret {A} (a : A) : method A := fun self => (Ok a, self).

Definition raise {A} (e : exn) : method A := fun self => (Raise e, self).

Definition bind {A B} (m : method A) (k : A -> method B) : method B :=
  fun self =>
    match m self with
    | (Ok a, self') => k a self'
    | (Raise e, self') => (Raise e, self')
    end.

(** [self.sample_rate] *)
Definition get_sample_rate : method Z := fun self => (Ok (sample_rate self), self).

(** [self.sample_rate = v] *)
Definition set_sample_rate (v : Z) : method unit :=
  fun _ => (Ok tt, {| sample_rate := v |}).

(** A numpy or builtin call that may raise. *)
Definition lift {A} (r : result A) : method A := fun self => (r, self).

Declare Scope method_scope.
Delimit Scope method_scope with method.
Notation "x <- m ;; k" := (bind m (fun x => k))
  (at level 61, m at next level, right associativity) : method_scope.
Open Scope method_scope.

(** A [for] loop that threads an accumulator through its body. *)
Fixpoint for_each {I A} (items : list I) (body : I -> A -> method A) (acc : A)
  : method A :=
  match items with
  | [] => ret acc
  | i :: items' => acc' <- body i acc ;; for_each items' body acc'
  end.

(** [__init__] (lines 35-36). *)
Definition init : method unit := set_sample_rate 44100.

(** The object a call [AudioQualityAnalyzer()] returns. *)
Definition new_analyzer : AudioQualityAnalyzer :=
  snd (init {| sample_rate := 0 |}).

(** [calculate_snr] (lines 50-59). *)
Definition calculate_snr (signal_audio noise_audio : list R) : method npfloat :=
  let signal_power := np.mean (np.square signal_audio) in
  let noise_power := np.mean (np.square noise_audio) in
  if np.eq0 noise_power then ret PosInf
  else
    let snr := np.scale 10 (np.log10 (np.div signal_power noise_power)) in
    ret snr.

(** [calculate_rms] (lines 110-112). *)
Definition calculate_rms (audio : list R) : method npfloat :=
  ret (np.sqrt (np.mean (np.square audio))).

(** [calculate_peak_level] (lines 114-119). *)
Definition calculate_peak_level (audio : list R) : method npfloat :=
  peak <- lift (np.max (np.abs audio)) ;;
  if Req_dec_T peak 0 then ret NegInf
  else ret (np.scale 20 (np.log10 (Fin peak))).

(** ** Python builtins *)

Module py.

(** [len(a)] *)
Definition len {A} (a : list A) : Z := Z.of_nat (length a).

(** [int(x)] of a float: truncation towards zero. *)
Definition int (x : R) : Z :=
  if Rle_dec 0 x then Int_part x else (- Int_part (- x))%Z.

(** [range(start, stop, step)], as the list of its elements. *)
Definition range (start stop step : Z) : result (list Z) :=
  if (step =? 0)%Z then Raise (ValueError RangeStepZero)
  else
    let n :=
      if (0 <? step)%Z then Z.to_nat ((stop - start + step - 1) / step)
      else Z.to_nat ((start - stop - step - 1) / (- step)) in
    Ok (map (fun k => (start + Z.of_nat k * step)%Z) (seq 0 n)).

(** A slice bound [k] of a sequence of length [n]: negative bounds count
    from the end, and every bound is clamped to the sequence. *)
Definition bound (n k : Z) : nat :=
  if (k <? 0)%Z then Z.to_nat (Z.max (n + k) 0) else Z.to_nat (Z.min k n).

(** [a[i:j]] *)
Definition slice {A} (a : list A) (i j : Z) : list A :=
  let lo := bound (len a) i in
  let hi := bound (len a) j in
  firstn (hi - lo) (skipn lo a).

End py.

(** ** The Fourier transform functions of numpy *)

Module fft.

(** A complex number, as real and imaginary part. *)
Definition complex : Type := (R * R)%type.

Definition cadd (z w : complex) : complex := (fst z + fst w, snd z + snd w).

(** [x_n * exp(-2 pi i k n / N)] *)
Definition term (N k n : nat) (xn : R) : complex :=
  let theta := 2 * PI * INR k * INR n / INR N in
  (xn * cos theta, - (xn * sin theta)).

(** The sum of the terms of bin [k] for the samples from index [n] on. *)
Fixpoint bin_from (N k n : nat) (x : list R) : complex :=
  match x with
  | [] => (0, 0)
  | xn :: x' => cadd (term N k n xn) (bin_from N k (S n) x')
  end.

(** [np.fft.fft(x)]: the discrete Fourier transform over the whole
    array; an empty array is refused. *)
Definition fft (x : list R) : result (list complex) :=
  match x with
  | [] => Raise (ValueError InvalidFFTLength)
  | _ :: _ =>
      let N := length x in
      Ok (map (fun k => bin_from N k 0 x) (seq 0 N))
  end.

(** The integer bin numbers of [fftfreq]: [0 .. (n-1)//2] and then
    [-(n//2) .. -1]. *)
Definition bins (n : nat) : list Z :=
  map Z.of_nat (seq 0 ((n - 1) / 2 + 1))
  ++ map (fun j => (Z.of_nat j - Z.of_nat (n / 2))%Z) (seq 0 (n / 2)).

(** [np.fft.fftfreq(n, d)]: bin numbers times [1.0/(n*d)], a Python
    division that raises on zero. *)
Definition fftfreq (n : nat) (d : R) : result (list R) :=
  if Req_dec_T (INR n * d) 0 then Raise ZeroDivisionError
  else
    let val := 1 / (INR n * d) in
    Ok (map (fun k => IZR k * val) (bins n)).

(** [np.abs] of a complex array. *)
Definition abs (a : list complex) : list R :=
  map (fun z => R_sqrt.sqrt (fst z * fst z + snd z * snd z)) a.

End fft.

(** ** Numpy scalars in arrays and differences of them *)

Module npf.

(** [x - y] *)
Definition sub (x y : npfloat) : npfloat :=
  match x, y with
  | NaN, _ | _, NaN => NaN
  | Fin a, Fin b => Fin (a - b)
  | Fin _, PosInf => NegInf
  | Fin _, NegInf => PosInf
  | PosInf, PosInf => NaN
  | PosInf, _ => PosInf
  | NegInf, NegInf => NaN
  | NegInf, _ => NegInf
  end.

Definition max2 (x y : npfloat) : npfloat :=
  match x, y with
  | NaN, _ | _, NaN => NaN
  | PosInf, _ | _, PosInf => PosInf
  | NegInf, z | z, NegInf => z
  | Fin a, Fin b => Fin (Rmax a b)
  end.

Definition min2 (x y : npfloat) : npfloat :=
  match x, y with
  | NaN, _ | _, NaN => NaN
  | NegInf, _ | _, NegInf => NegInf
  | PosInf, z | z, PosInf => z
  | Fin a, Fin b => Fin (Rmin a b)
  end.

(** [np.max] and [np.min] of a list of numpy scalars. *)
Definition max (a : list npfloat) : result npfloat :=
  match a with
  | [] => Raise (ValueError ZeroSizeReduction)
  | x :: a' => Ok (fold_left max2 a' x)
  end.

Definition min (a : list npfloat) : result npfloat :=
  match a with
  | [] => Raise (ValueError ZeroSizeReduction)
  | x :: a' => Ok (fold_left min2 a' x)
  end.

End npf.

(** ** The remaining methods *)

(** [magnitude[idx] ** 2] *)
Definition power_at (magnitude : list R) (idx : nat) : R :=
  nth idx magnitude 0 * nth idx magnitude 0.

(** [np.argmin(np.abs(freqs - f))] *)
Definition nearest_bin (freqs : list R) (f : R) : result nat :=
  np.argmin (np.abs (map (fun fr => fr - f) freqs)).

(** [calculate_thd_n] (lines 61-88).  [1 / self.sample_rate] is a Python
    division of integers and raises on zero. *)
Definition calculate_thd_n (audio : list R) (fundamental_freq : R)
  : method npfloat :=
  fft <- lift (fft.fft audio) ;;
  sr <- get_sample_rate ;;
  d <- (if (sr =? 0)%Z then raise ZeroDivisionError else ret (1 / IZR sr)) ;;
  freqs <- lift (fft.fftfreq (length audio) d) ;;
  let magnitude := fft.abs fft in
  fundamental_idx <- lift (nearest_bin freqs fundamental_freq) ;;
  let fundamental_power := power_at magnitude fundamental_idx in
  harmonic_power <-
    for_each [2; 3; 4; 5]
      (fun harmonic harmonic_power =>
         let harmonic_freq := fundamental_freq * harmonic in
         sr <- get_sample_rate ;;
         if Rlt_dec harmonic_freq (IZR sr / 2) then
           harmonic_idx <- lift (nearest_bin freqs harmonic_freq) ;;
           ret (harmonic_power + power_at magnitude harmonic_idx)
         else ret harmonic_power)
      0 ;;
  let total_power := np.sum (np.square magnitude) in
  let noise_and_distortion_power := total_power - fundamental_power in
  if Req_dec_T fundamental_power 0 then ret PosInf
  else
    let thd_n :=
      np.scale 100 (np.sqrt (Fin (noise_and_distortion_power / fundamental_power))) in
    ret thd_n.

(** [calculate_dynamic_range] (lines 121-136). *)
Definition calculate_dynamic_range (audio : list R) : method npfloat :=
  sr <- get_sample_rate ;;
  let window_size := py.int (0.1 * IZR sr) in
  starts <- lift (py.range 0 (py.len audio - window_size) window_size) ;;
  rms_values <-
    for_each starts
      (fun i rms_values =>
         let window := py.slice audio i (i + window_size) in
         rms <- calculate_rms window ;;
         if np.gt0 rms then ret (rms_values ++ [np.scale 20 (np.log10 rms)])
         else ret rms_values)
      [] ;;
  if (py.len rms_values <? 2)%Z then ret (Fin 0)
  else
    hi <- lift (npf.max rms_values) ;;
    lo <- lift (npf.min rms_values) ;;
    ret (npf.sub hi lo).

(** The value a metric call returns. *)
Inductive metric_value : Type :=
| Scalar (x : npfloat)
| Correlation (coefficient p_value : npfloat)
| Response (frequencies : list R) (average_power : list npfloat).

(** The calls of the public metric methods. *)
Inductive metric_call : Type :=
| CallSnr (signal_audio noise_audio : list R)
| CallThdN (audio : list R) (fundamental_freq : R)
| CallFrequencyResponse (audio : list R)
| CallCorrelation (audio1 audio2 : list R)
| CallRms (audio : list R)
| CallPeakLevel (audio : list R)
| CallDynamicRange (audio : list R).

Section Scipy.

(** The two scipy functions the class calls are not part of this
    repository.  [spectrogram audio fs nperseg] stands for
    [scipy.signal.spectrogram]: frequencies, times, and one row of power
    per frequency.  [pearson_statistic] stands for the computation of
    the coefficient and the p-value inside [scipy.stats.pearsonr], after
    its checks of the arguments. *)
Variable spectrogram : list R -> Z -> Z -> result (list R * list R * list (list R)).
Variable pearson_statistic : list R -> list R -> npfloat * npfloat.

(** [scipy.stats.pearsonr]: both arguments must have one length, and
    that length must be at least 2. *)
Definition pearsonr (x y : list R) : result (npfloat * npfloat) :=
  let n := py.len x in
  if negb (n =? py.len y)%Z then Raise (ValueError PearsonLengthMismatch)
  else if (n <? 2)%Z then Raise (ValueError PearsonTooShort)
  else Ok (pearson_statistic x y).

(** [calculate_frequency_response] (lines 90-98). *)
Definition calculate_frequency_response (audio : list R)
  : method (list R * list npfloat) :=
  sr <- get_sample_rate ;;
  ftS <- lift (spectrogram audio sr 1024) ;;
  let '(f, _, Sxx) := ftS in
  let avg_power := map np.mean Sxx in
  ret (f, avg_power).

(** [calculate_correlation] (lines 100-108). *)
Definition calculate_correlation (audio1 audio2 : list R)
  : method (npfloat * npfloat) :=
  let min_len := Z.min (py.len audio1) (py.len audio2) in
  let audio1 := py.slice audio1 0 min_len in
  let audio2 := py.slice audio2 0 min_len in
  cp <- lift (pearsonr audio1 audio2) ;;
  let '(correlation, p_value) := cp in
  ret (correlation, p_value).

(** A call of a metric method on an analyzer. *)
Definition call (c : metric_call) : method metric_value :=
  match c with
  | CallSnr s n => x <- calculate_snr s n ;; ret (Scalar x)
  | CallThdN a f => x <- calculate_thd_n a f ;; ret (Scalar x)
  | CallFrequencyResponse a =>
      fp <- calculate_frequency_response a ;; ret (Response (fst fp) (snd fp))
  | CallCorrelation a b =>
      cp <- calculate_correlation a b ;; ret (Correlation (fst cp) (snd cp))
  | CallRms a => x <- calculate_rms a ;; ret (Scalar x)
  | CallPeakLevel a => x <- calculate_peak_level a ;; ret (Scalar x)
  | CallDynamicRange a => x <- calculate_dynamic_range a ;; ret (Scalar x)
  end.

End Scipy.

(** ** The properties, in the words of the specification *)

(** The mean of the squared samples of a buffer with at least one sample. *)
Definition mean_square (audio : list R) : R :=
  fold_right (fun x s => x * x + s) 0 audio / INR (length audio).

(** Mean-square power as a numpy scalar: the empty buffer has none. *)
Definition power (audio : list R) : npfloat :=
  if Nat.eqb (length audio) 0 then NaN else Fin (mean_square audio).

(** [10 * log10(signalPower / noisePower)], or plus infinity when the noise
    power is exactly zero. *)
Definition snr_spec (signal_audio noise_audio : list R) : npfloat :=
  if np.eq0 (power noise_audio) then PosInf
  else np.scale 10 (np.log10 (np.div (power signal_audio) (power noise_audio))).


(** Every sample is zero. *)
Definition silent (audio : list R) : Prop := Forall (fun x => x = 0) audio.

(** Every sample lies in [-1, 1]. *)
Definition normalized (audio : list R) : Prop :=
  Forall (fun x => -1 <= x <= 1) audio.

(** RMS is the square root of the mean square, is not negative, and is
    zero exactly for a silent buffer. *)
Definition rms_property (audio : list R) (self : AudioQualityAnalyzer) : Prop :=
  exists v : R,
    fst (calculate_rms audio self) = Ok (Fin v)
    /\ v = sqrt (mean_square audio)
    /\ 0 <= v
    /\ (v = 0 <-> silent audio).

(** [m] is the largest absolute value of a sample of [audio]. *)
Definition max_abs (audio : list R) (m : R) : Prop :=
  (exists x, In x audio /\ m = Rabs x) /\ forall x, In x audio -> Rabs x <= m.

(** Peak level is [20 * log10] of the largest absolute sample, is minus
    infinity exactly for a silent buffer, and is at most 0 for a
    normalized one. *)
Definition peak_level_property (audio : list R) (self : AudioQualityAnalyzer)
  : Prop :=
  exists v : npfloat,
    fst (calculate_peak_level audio self) = Ok v
    /\ (exists m, max_abs audio m /\ v = np.scale 20 (np.log10 (Fin m)))
    /\ (v = NegInf <-> silent audio)
    /\ (normalized audio -> np_le v (Fin 0)).

(** The squared magnitude of bin [k] of the transform of [audio]. *)
Definition bin_power (audio : list R) (k : nat) : R :=
  let z := fft.bin_from (length audio) k 0 audio in
  fst z * fst z + snd z * snd z.

(** The sum of the squared magnitudes of all bins. *)
Definition total_power (audio : list R) : R :=
  np.sum (map (bin_power audio) (seq 0 (length audio))).




(** THD+N in percent from the power of the fundamental bin and the power
    of all bins; the power at the harmonics has no part in it. *)
Definition thd_n_formula (fundamental total : R) : npfloat :=
  if Req_dec_T fundamental 0 then PosInf
  else Fin (sqrt ((total - fundamental) / fundamental) * 100).


(** The full windows of [w] samples of a buffer, in order. *)
Definition full_windows (w : nat) (audio : list R) : list (list R) :=
  map (fun k => firstn w (skipn (k * w) audio)) (seq 0 (length audio / w)).

(** The windows the loop of [calculate_dynamic_range] reaches: window [k]
    is read when [k * w < len(audio) - w]. *)
Definition windows_read (w : nat) (audio : list R) : list (list R) :=
  map (fun k => firstn w (skipn (k * w) audio)) (seq 0 ((length audio - 1) / w)).

(** The level in dB of a window, for a window that is not silent. *)
Definition window_db (window : list R) : option R :=
  let rms := sqrt (mean_square window) in
  if Rlt_dec 0 rms then Some (20 * np.Rlog10 rms) else None.

Fixpoint levels (windows : list (list R)) : list R :=
  match windows with
  | [] => []
  | window :: windows' =>
      match window_db window with
      | Some db => db :: levels windows'
      | None => levels windows'
      end
  end.

(** Largest minus smallest level; 0 with fewer than two levels. *)
Definition spread (dbs : list R) : R :=
  match dbs with
  | db :: (_ :: _) as rest => fold_right Rmax db rest - fold_right Rmin db rest
  | _ => 0
  end.

(** Dynamic range over all full windows of [round(0.1 * sampleRate)]
    samples. *)
Definition dynamic_range_spec (w : nat) (audio : list R) : R :=
  spread (levels (full_windows w audio)).

(** A method body is read-only when it ends with the attributes it started
    from, whatever it returns or raises. *)
Definition read_only {A} (m : method A) : Prop :=
  forall self, snd (m self) = self.

(** The window size at the sample rate 44100 of the analyzer. *)
Definition default_window : nat := Z.to_nat 4410.

(** The product [0.1 * self.sample_rate] at that rate as Python computes
    it, in binary64; [0x1.999999999999ap-4] is the double nearest to 0.1. *)
Module binary64.
Import PrimFloat.

Definition tenth : float := 0x1.999999999999ap-4%float.

Definition default_window : float := mul tenth 44100%float.

Definition is_4410 (x : float) : bool := eqb x 4410%float.

End binary64.

(** Two full windows and nothing else: 4410 samples of 1.0 and then 4410
    samples of 0.5. *)
Definition two_window_buffer : list R :=
  repeat 1 default_window ++ repeat (1 / 2) default_window.

(** ** Where binary floating point and the exact model agree

    The methods of the program compute in binary floating point: in
    binary64 on the arrays of [create_test_audio], in binary32 on the
    arrays of [librosa.load].  A square that overflows to infinity or
    underflows to 0.0 changes what a method returns in kind, and not only
    in its last digits.  The statements about values are therefore made
    for the calls that stay clear of both. *)

(** 2^24. *)
Definition sample_limit : R := 16777216.

(** Every sample is 0 or has an absolute value from 2^-24 to 2^24.  The
    squares then lie between 2^-48 and 2^48, and the means, sums and
    quotients the methods form of them are neither rounded to zero nor to
    infinity, in single as in double precision. *)
Definition in_range (audio : list R) : Prop :=
  Forall (fun x => x = 0 \/ / sample_limit <= Rabs x <= sample_limit) audio.

(** A sample rate other than 0 of at most 2^24 in absolute value: an
    integer that is a double, with a reciprocal that is not rounded to 0. *)
Definition usual_rate (self : AudioQualityAnalyzer) : Prop :=
  sample_rate self <> 0%Z /\ (Z.abs (sample_rate self) <= 16777216)%Z.

(** A frequency of at most 2^24 Hz in absolute value. *)
Definition in_band (f : R) : Prop := Rabs f <= sample_limit.



(** Correlation cuts both buffers to the length of the shorter one and
    returns the statistic of the two prefixes; it raises nothing. *)
Definition correlation_property
    (pearson_statistic : list R -> list R -> npfloat * npfloat)
    (audio1 audio2 : list R) (self : AudioQualityAnalyzer) : Prop :=
  let m := Nat.min (length audio1) (length audio2) in
  fst (calculate_correlation pearson_statistic audio1 audio2 self)
  = Ok (pearson_statistic (firstn m audio1) (firstn m audio2)).

(** ** The methods in binary64

    The methods once more, on primitive floats, as far as the arithmetic
    of binary64 alone decides what they return: on buffers of at most two
    samples, where the order of the additions does not matter, and for
    [calculate_thd_n] on a buffer of one sample, which is its own
    transform.  The logarithm and the transform of longer buffers are
    library code and no operations of binary64; they stay outside. *)

Module float64.
Import PrimFloat.
Local Open Scope float_scope.

Definition tiny : float := 0x1p-600.


(** An integer of Python as a double (exact below 2^53). *)
Definition of_Z (z : Z) : float :=
  match z with
  | Z0 => 0
  | Zpos _ => of_uint63 (Uint63.of_Z z)
  | Zneg p => - of_uint63 (Uint63.of_Z (Zpos p))
  end.

(** [a ** 2], elementwise. *)
Definition square (a : list float) : list float := map (fun x => x * x) a.

(** [np.sum(a)] of at most two numbers. *)
Definition sum (a : list float) : option float :=
  match a with
  | [] => Some 0
  | [x] => Some x
  | [x; y] => Some (x + y)
  | _ => None
  end.

(** [np.mean(a)]: the sum over the number of elements, which is NaN
    ([0.0 / 0]) for an empty array. *)
Definition mean (a : list float) : option float :=
  option_map (fun s => s / of_Z (py.len a)) (sum a).

(** [calculate_rms] (lines 110-112). *)
Definition calculate_rms (audio : list float) : option float :=
  option_map sqrt (mean (square audio)).

(** What [calculate_snr] returns: a number, or [10 * np.log10(ratio)] with
    the logarithm not carried out. *)
Inductive level : Type :=
| Plain (x : float)
| TenLog10 (ratio : float).

(** [calculate_snr] (lines 50-59). *)
Definition calculate_snr (signal_audio noise_audio : list float) : option level :=
  match mean (square signal_audio), mean (square noise_audio) with
  | Some signal_power, Some noise_power =>
      if noise_power =? 0 then Some (Plain infinity)
      else Some (TenLog10 (signal_power / noise_power))
  | _, _ => None
  end.

(** [np.abs(np.fft.fft(audio))] of one sample: the sample is its own
    transform, and the magnitude is its absolute value.  An empty array
    is refused. *)
Definition magnitude (audio : list float) : option (result (list float)) :=
  match audio with
  | [] => Some (Raise (ValueError InvalidFFTLength))
  | [x] => Some (Ok [abs x])
  | _ => None
  end.

(** [np.fft.fftfreq(n, d)]. *)
Definition fftfreq (n : nat) (d : float) : result (list float) :=
  let nd := of_Z (Z.of_nat n) * d in
  if nd =? 0 then Raise ZeroDivisionError
  else
    let val := 1 / nd in
    Ok (map (fun k => of_Z k * val) (fft.bins n)).

(** [np.argmin(a)]: the first index of the smallest element. *)
Fixpoint argmin_from (best : nat) (m : float) (i : nat) (a : list float) : nat :=
  match a with
  | [] => best
  | x :: a' =>
      if x <? m then argmin_from i x (S i) a'
      else argmin_from best m (S i) a'
  end.

Definition argmin (a : list float) : result nat :=
  match a with
  | [] => Raise (ValueError ZeroSizeReduction)
  | x :: a' => Ok (argmin_from 0%nat x 1%nat a')
  end.

(** [np.argmin(np.abs(freqs - f))] *)
Definition nearest_bin (freqs : list float) (f : float) : result nat :=
  argmin (map (fun fr => abs (fr - f)) freqs).

(** The spectrum a call of [calculate_thd_n] works on (lines 63-69):
    the magnitudes, and the index of the bin nearest the fundamental. *)
Definition spectrum (audio : list float) (fundamental_freq : float)
    (self : AudioQualityAnalyzer) : option (result (list float * list float * nat)) :=
  match magnitude audio with
  | None => None
  | Some (Raise e) => Some (Raise e)
  | Some (Ok magnitude) =>
      if (sample_rate self =? 0)%Z then Some (Raise ZeroDivisionError)
      else
        match fftfreq (length audio) (1 / of_Z (sample_rate self)) with
        | Raise e => Some (Raise e)
        | Ok freqs =>
            match nearest_bin freqs fundamental_freq with
            | Raise e => Some (Raise e)
            | Ok fundamental_idx => Some (Ok (magnitude, freqs, fundamental_idx))
            end
        end
  end.

(** [magnitude[idx] ** 2] *)
Definition power_at (magnitude : list float) (idx : nat) : float :=
  nth idx magnitude 0 * nth idx magnitude 0.

(** [fundamental_power] of line 69. *)
Definition fundamental_power (audio : list float) (fundamental_freq : float)
    (self : AudioQualityAnalyzer) : option float :=
  match spectrum audio fundamental_freq self with
  | Some (Ok (magnitude, _, fundamental_idx)) =>
      Some (power_at magnitude fundamental_idx)
  | _ => None
  end.

(** [calculate_thd_n] (lines 61-88). *)
Definition calculate_thd_n (audio : list float) (fundamental_freq : float)
    (self : AudioQualityAnalyzer) : option (result float) :=
  match spectrum audio fundamental_freq self with
  | None => None
  | Some (Raise e) => Some (Raise e)
  | Some (Ok (magnitude, freqs, fundamental_idx)) =>
      let fundamental_power := power_at magnitude fundamental_idx in
      let harmonic_power :=
        fold_left
          (fun harmonic_power harmonic =>
             let harmonic_freq := fundamental_freq * harmonic in
             if harmonic_freq <? of_Z (sample_rate self) / 2 then
               match nearest_bin freqs harmonic_freq with
               | Ok harmonic_idx => harmonic_power + power_at magnitude harmonic_idx
               | Raise _ => harmonic_power
               end
             else harmonic_power)
          [2; 3; 4; 5] 0 in
      match sum (square magnitude) with
      | None => None
      | Some total_power =>
          let noise_and_distortion_power := total_power - fundamental_power in
          if fundamental_power =? 0 then Some (Ok infinity)
          else Some (Ok (sqrt (noise_and_distortion_power / fundamental_power) * 100))
      end
  end.

(** What the specification says of buffers of one or two samples: a
    sample other than zero has a square, and a buffer with such a sample
    a mean square, other than zero. *)

(** RMS is zero only for a buffer of zeros. *)
Definition rms_zero_only_when_silent (audio : list float) : Prop :=
  forall v, calculate_rms audio = Some v ->
    (v =? 0) = true -> forallb (fun x => x =? 0) audio = true.

(** With a noise sample that is not zero the noise power is not zero, and
    the signal-to-noise ratio is [10 * log10] of a quotient of powers. *)
Definition snr_is_a_ratio (signal_audio noise_audio : list float) : Prop :=
  existsb (fun x => negb (x =? 0)) noise_audio = true ->
  exists ratio, calculate_snr signal_audio noise_audio = Some (TenLog10 ratio).



End float64.

(** ** The tester: [World4UtauTester] (lines 139-225)

    The tester works on the outside world: files, the random generator of
    numpy and the terminal.  None of that is code of this repository, so
    the outside world is a type [world] and the library functions that act
    on it are the fields of an [environment]. *)

(** What [print] writes, by the place of the call. *)
Inductive message : Type :=
| LoadFailed (file_path error : String.string)   (* line 47 *)
| TestAudioFailed (error : String.string)        (* line 179 *)
| TestStarted (test_name : String.string)              (* line 232 *)
| TestAudioCreationFailed (test_name : String.string)  (* line 243 *)
| World4UtauFailed (test_name : String.string)         (* line 256 *)
| ErrorOutput (stderr : String.string).                (* line 257 *)

(** The exceptions that leave a method of the tester: those of the
    analyzer's metrics, and those of the statements of lines 38-225
    themselves. *)
Inductive tester_exn : Type :=
| MetricError (e : exn)
| LinspaceNegative   (* ValueError of np.linspace: number of samples < 0 *)
| BroadcastError     (* ValueError of [audio += noise]: shapes differ *)
| ImportError        (* raised by load_audio, line 41 *)
| KeyError (key : String.string).   (* a dictionary without the key *)

Inductive outcome (A : Type) : Type :=
| Return (a : A)
| Throw (e : tester_exn).

Arguments Return {A} a.
Arguments Throw {A} e.

Record environment : Type := {
  world : Type;
  (** the module constant set by the imports of lines 19-29 *)
  AUDIO_LIBS_AVAILABLE : bool;
  (** [np.random.randn(n)] *)
  randn : nat -> world -> list R * world;
  (** [sf.write(file, data, samplerate)]; [Some e] is an exception [e] *)
  sf_write : String.string -> list R -> Z -> world -> option String.string * world;
  (** [librosa.load(path, sr=sr, mono=True)]; [inl e] is an exception [e] *)
  librosa_load :
    String.string -> Z -> world -> (String.string + list R * Z) * world;
  (** [print] *)
  print : message -> world -> world;
  (** [scipy.signal.spectrogram] and the statistic of [pearsonr] *)
  env_spectrogram : list R -> Z -> Z -> result (list R * list R * list (list R));
  env_pearson_statistic : list R -> list R -> npfloat * npfloat
}.

(** [np.random.randn(n)] returns [n] numbers. *)
Definition randn_returns_n (env : environment) : Prop :=
  forall n w, length (fst (randn env n w)) = n.

(** The attributes of a [World4UtauTester] (lines 142-144). *)
Record World4UtauTester : Type := {
  world4utau_path : String.string;
  analyzer : AudioQualityAnalyzer
}.

(** [np.linspace(0, stop, num)]: [num] times from 0 to [stop], both ends
    included; a negative [num] is refused. *)
Definition np_linspace (stop : R) (num : Z) : outcome (list R) :=
  if (num <? 0)%Z then Throw LinspaceNegative
  else if (num =? 1)%Z then Return [0]
  else
    let step := stop / IZR (num - 1) in
    Return (map (fun i => INR i * step) (seq 0 (Z.to_nat num))).

(** [a += b] on arrays of one dimension: [b] must have the length of [a],
    or length 1. *)
Definition np_iadd (a b : list R) : outcome (list R) :=
  if Nat.eqb (length b) (length a) then
    Return (map (fun xy => fst xy + snd xy) (combine a b))
  else
    match b with
    | [y] => Return (map (fun x => x + y) a)
    | _ => Throw BroadcastError
    end.

(** The dictionary [results] of [analyze_quality]: keys in the order of
    their first assignment. *)
Inductive report_value : Type :=
| Number (x : npfloat)
| Spectra (original_freqs : list R) (original_power : list npfloat)
          (processed_freqs : list R) (processed_power : list npfloat).

Definition report : Type := list (String.string * report_value).

(** [d[key] = value] *)
Fixpoint dict_set (d : report) (key : String.string) (value : report_value)
  : report :=
  match d with
  | [] => [(key, value)]
  | (k, v) :: d' =>
      if String.eqb k key then (k, value) :: d'
      else (k, v) :: dict_set d' key value
  end.

(** [d.get(key)] *)
Fixpoint dict_get (d : report) (key : String.string) : option report_value :=
  match d with
  | [] => None
  | (k, v) :: d' => if String.eqb k key then Some v else dict_get d' key
  end.

(** The keys of the dictionary [analyze_quality] returns. *)
Module keys.
Definition original_rms : String.string := "original_rms"%str.
Definition processed_rms : String.string := "processed_rms"%str.
Definition original_peak : String.string := "original_peak"%str.
Definition processed_peak : String.string := "processed_peak"%str.
Definition correlation : String.string := "correlation"%str.
Definition correlation_p_value : String.string := "correlation_p_value"%str.
Definition original_thd_n : String.string := "original_thd_n"%str.
Definition processed_thd_n : String.string := "processed_thd_n"%str.
Definition original_dynamic_range : String.string := "original_dynamic_range"%str.
Definition processed_dynamic_range : String.string := "processed_dynamic_range"%str.
Definition frequency_response : String.string := "frequency_response"%str.
Definition all : list String.string :=
  [original_rms; processed_rms; original_peak; processed_peak; correlation;
   correlation_p_value; original_thd_n; processed_thd_n;
   original_dynamic_range; processed_dynamic_range; frequency_response].
End keys.

Declare Scope action_scope.
Delimit Scope action_scope with action.

Section Tester.

Variable env : environment.

(** A method body of the tester: from the tester and the world to a value
    or an exception, and the tester and the world after it. *)
Definition action (A : Type) : Type :=
  World4UtauTester * world env -> outcome A * (World4UtauTester * world env).

Definition areturn {A} (a : A) : action A := fun s => (Return a, s).

Definition athrow {A} (e : tester_exn) : action A := fun s => (Throw e, s).

Definition abind {A B} (m : action A) (k : A -> action B) : action B :=
  fun s =>
    match m s with
    | (Return a, s') => k a s'
    | (Throw e, s') => (Throw e, s')
    end.

(** A numpy call that may raise. *)
Definition alift {A} (o : outcome A) : action A := fun s => (o, s).

(** A library call on the outside world. *)
Definition outside {A} (f : world env -> A * world env) : action A :=
  fun s => let (a, w) := f (snd s) in (Return a, (fst s, w)).

(** A call [self.analyzer.m(...)] of a method of the analyzer. *)
Definition on_analyzer {A} (m : method A) : action A :=
  fun s =>
    let (r, an) := m (analyzer (fst s)) in
    let s' := ({| world4utau_path := world4utau_path (fst s); analyzer := an |},
               snd s) in
    match r with
    | Ok a => (Return a, s')
    | Raise e => (Throw (MetricError e), s')
    end.

Notation "x <- m ;; k" := (abind m (fun x => k))
  (at level 61, m at next level, right associativity) : action_scope.
Notation "m ;;; k" := (abind m (fun _ => k))
  (at level 61, right associativity) : action_scope.
Local Open Scope action_scope.

(** [load_audio] (lines 38-48), called as [self.analyzer.load_audio]. *)
Definition load_audio (file_path : String.string)
  : action (option (list R * Z)) :=
  if negb (AUDIO_LIBS_AVAILABLE env) then athrow ImportError
  else
    sr <- on_analyzer get_sample_rate ;;
    loaded <- outside (librosa_load env file_path sr) ;;
    match loaded with
    | inr (audio, sr') => areturn (Some (audio, sr'))
    | inl e =>
        outside (fun w => (tt, print env (LoadFailed file_path e) w)) ;;;
        areturn None
    end.

(** [create_test_audio] (lines 163-180). *)
Definition create_test_audio (output_file : String.string)
    (duration frequency : R) : action bool :=
  if negb (AUDIO_LIBS_AVAILABLE env) then areturn false
  else
    sr <- on_analyzer get_sample_rate ;;
    t <- alift (np_linspace duration (py.int (duration * IZR sr))) ;;
    let audio := map (fun ti => 0.5 * sin (2 * PI * frequency * ti)) t in
    draw <- outside (randn env (length audio)) ;;
    let noise := map (fun z => 0.01 * z) draw in
    audio <- alift (np_iadd audio noise) ;;
    sr <- on_analyzer get_sample_rate ;;
    written <- outside (sf_write env output_file audio sr) ;;
    match written with
    | None => areturn true
    | Some e =>
        outside (fun w => (tt, print env (TestAudioFailed e) w)) ;;;
        areturn false
    end.

(** [analyze_quality] (lines 182-225); [None] is the [None] it returns
    when a file could not be loaded. *)
Definition analyze_quality (original_file processed_file : String.string)
  : action (option report) :=
  let results : report := [] in
  original <- load_audio original_file ;;
  processed <- load_audio processed_file ;;
  match original, processed with
  | Some (original, _), Some (processed, _) =>
      x <- on_analyzer (calculate_rms original) ;;
      let results := dict_set results keys.original_rms (Number x) in
      x <- on_analyzer (calculate_rms processed) ;;
      let results := dict_set results keys.processed_rms (Number x) in
      x <- on_analyzer (calculate_peak_level original) ;;
      let results := dict_set results keys.original_peak (Number x) in
      x <- on_analyzer (calculate_peak_level processed) ;;
      let results := dict_set results keys.processed_peak (Number x) in
      cp <- on_analyzer
              (calculate_correlation (env_pearson_statistic env) original processed) ;;
      let results := dict_set results keys.correlation (Number (fst cp)) in
      let results := dict_set results keys.correlation_p_value (Number (snd cp)) in
      x <- on_analyzer (calculate_thd_n original 440) ;;
      let results := dict_set results keys.original_thd_n (Number x) in
      x <- on_analyzer (calculate_thd_n processed 440) ;;
      let results := dict_set results keys.processed_thd_n (Number x) in
      x <- on_analyzer (calculate_dynamic_range original) ;;
      let results := dict_set results keys.original_dynamic_range (Number x) in
      x <- on_analyzer (calculate_dynamic_range processed) ;;
      let results := dict_set results keys.processed_dynamic_range (Number x) in
      orig <- on_analyzer
                (calculate_frequency_response (env_spectrogram env) original) ;;
      proc <- on_analyzer
                (calculate_frequency_response (env_spectrogram env) processed) ;;
      let results :=
        dict_set results keys.frequency_response
          (Spectra (fst orig) (snd orig) (fst proc) (snd proc)) in
      areturn (Some results)
  | _, _ => areturn None
  end.

End Tester.

(** The world after a call of [librosa.load] from [load_audio]: a failure is
    printed. *)
Definition after_load env (file_path : String.string)
    (loaded : (String.string + list R * Z) * world env) : world env :=
  match fst loaded with
  | inl e => print env (LoadFailed file_path e) (snd loaded)
  | inr _ => snd loaded
  end.

(** ** Running the program and the tests (lines 146-161 and 227-278) *)

(** [str(z)] of an integer. *)
Definition py_str (z : Z) : String.string :=
  DecimalString.NilZero.string_of_int (Z.to_int z).

(** The whitespace of [str.split()] among the ASCII characters: tab to
    carriage return, the four separators 28 to 31, and the space. *)
Definition is_space (c : Ascii.ascii) : bool :=
  let n := Ascii.nat_of_ascii c in
  ((9 <=? n) && (n <=? 13) || (28 <=? n) && (n <=? 32))%nat.

(** [s.split()], with [word] the characters of the word being read. *)
Fixpoint split_words (word s : String.string) : list String.string :=
  match s with
  | String.EmptyString =>
      match word with
      | String.EmptyString => []
      | _ => [word]
      end
  | String.String c s' =>
      if is_space c then
        match word with
        | String.EmptyString => split_words String.EmptyString s'
        | _ => word :: split_words String.EmptyString s'
        end
      else split_words (String.append word (String.String c String.EmptyString)) s'
  end.

Definition str_split (s : String.string) : list String.string :=
  split_words String.EmptyString s.

(** The list [cmd] of lines 150-153. *)
Definition command_line (path input_file output_file : String.string)
    (pitch velocity : Z) (options : String.string) : list String.string :=
  let cmd := [path; input_file; output_file; py_str pitch; py_str velocity] in
  match options with
  | String.EmptyString => cmd
  | _ => cmd ++ str_split options
  end.

(** How [subprocess.run(cmd, capture_output=True, text=True, timeout=60)]
    ends. *)
Inductive process_result : Type :=
| Completed (returncode : Z) (stdout stderr : String.string)
| TimeoutExpired
| OtherException (text : String.string).

(** The functions of the operating system, for an environment. *)
Record host (env : environment) : Type := {
  (** [subprocess.run] *)
  subprocess_run : list String.string -> world env -> process_result * world env;
  (** [os.remove]; [false] when it raised *)
  os_remove : String.string -> world env -> bool * world env
}.

Arguments subprocess_run {env} h cmd w.
Arguments os_remove {env} h path w.

(** A test configuration: a dictionary read with [get(key, default)]. *)
Record test_config : Type := {
  duration : option R;
  frequency : option R;
  pitch : option Z;
  velocity : option Z;
  options : option String.string
}.

(** [d.get(key, default)] *)
Definition get_or {A} (value : option A) (default : A) : A :=
  match value with
  | Some v => v
  | None => default
  end.

(** The values of the dictionary of one test in [results]. *)
Inductive entry_value : Type :=
| Config (c : test_config)
| Quality (r : report)
| Bool (b : bool).

Definition entry : Type := list (String.string * entry_value).

(** [d[key] = value] and [d[key]] on dictionaries in general. *)
Fixpoint dict_put {V} (d : list (String.string * V)) (key : String.string)
    (value : V) : list (String.string * V) :=
  match d with
  | [] => [(key, value)]
  | (k, v) :: d' =>
      if String.eqb k key then (k, value) :: d'
      else (k, v) :: dict_put d' key value
  end.

Fixpoint dict_lookup {V} (d : list (String.string * V)) (key : String.string)
  : option V :=
  match d with
  | [] => None
  | (k, v) :: d' => if String.eqb k key then Some v else dict_lookup d' key
  end.

Module text.
Definition timeout : String.string := "타임아웃"%str.
Definition config : String.string := "config"%str.
Definition quality : String.string := "quality"%str.
Definition success : String.string := "success"%str.
Definition test_input_ : String.string := "test_input_"%str.
Definition test_output_ : String.string := "test_output_"%str.
Definition wav : String.string := ".wav"%str.
End text.

Section Runs.

Variable env : environment.
Variable h : host env.

Local Open Scope action_scope.
Notation "x <- m ;; k" := (abind env m (fun x => k))
  (at level 61, m at next level, right associativity) : action_scope.
Notation "m ;;; k" := (abind env m (fun _ => k))
  (at level 61, right associativity) : action_scope.

(** [print(...)] *)
Definition say (m : message) : action env unit :=
  outside env (fun w => (tt, print env m w)).

(** [self.world4utau_path] *)
Definition get_path : action env String.string :=
  fun s => (Return (world4utau_path (fst s)), s).

(** [run_world4utau] (lines 146-161). *)
Definition run_world4utau (input_file output_file : String.string)
    (pitch velocity : Z) (options : String.string)
  : action env (bool * String.string * String.string) :=
  path <- get_path ;;
  let cmd := command_line path input_file output_file pitch velocity options in
  result <- outside env (subprocess_run h cmd) ;;
  match result with
  | Completed returncode stdout stderr =>
      areturn env ((returncode =? 0)%Z, stdout, stderr)
  | TimeoutExpired => areturn env (false, String.EmptyString, text.timeout)
  | OtherException e => areturn env (false, String.EmptyString, e)
  end.

(** The cleanup of lines 272-276: the second file is removed only when
    removing the first raised nothing; what is raised is dropped. *)
Definition remove_files (input_file output_file : String.string)
  : action env unit :=
  removed <- outside env (os_remove h input_file) ;;
  if removed : bool then
    outside env (os_remove h output_file) ;;; areturn env tt
  else areturn env tt.

(** One turn of the loop of [run_quality_tests] (lines 232-276). *)
Definition run_quality_test (test_name : String.string) (config : test_config)
    (results : list (String.string * entry))
  : action env (list (String.string * entry)) :=
  say (TestStarted test_name) ;;;
  let input_file :=
    String.append text.test_input_ (String.append test_name text.wav) in
  let output_file :=
    String.append text.test_output_ (String.append test_name text.wav) in
  created <- create_test_audio env input_file
               (get_or (duration config) 5) (get_or (frequency config) 440) ;;
  if negb created then
    say (TestAudioCreationFailed test_name) ;;; areturn env results
  else
    run <- run_world4utau input_file output_file
             (get_or (pitch config) 440%Z) (get_or (velocity config) 100%Z)
             (get_or (options config) String.EmptyString) ;;
    let '(success, stdout, stderr) := run in
    if negb success then
      say (World4UtauFailed test_name) ;;;
      say (ErrorOutput stderr) ;;;
      areturn env results
    else
      quality_results <- analyze_quality env input_file output_file ;;
      let results :=
        match quality_results with
        | Some ((_ :: _) as quality) =>
            dict_put results test_name
              [(text.config, Config config); (text.quality, Quality quality);
               (text.success, Bool true)]
        | _ =>
            dict_put results test_name
              [(text.config, Config config); (text.success, Bool false)]
        end in
      remove_files input_file output_file ;;;
      areturn env results.

(** [run_quality_tests] (lines 227-278), on the items of [test_cases]. *)
Fixpoint run_tests (test_cases : list (String.string * test_config))
    (results : list (String.string * entry))
  : action env (list (String.string * entry)) :=
  match test_cases with
  | [] => areturn env results
  | (test_name, config) :: rest =>
      results <- run_quality_test test_name config results ;;
      run_tests rest results
  end.

Definition run_quality_tests (test_cases : list (String.string * test_config))
  : action env (list (String.string * entry)) :=
  run_tests test_cases [].

End Runs.

(** ** Reading the results (lines 328-334, 347-353 and 457-458) *)

(** [d[key]], a [KeyError] without the key. *)
Definition subscript {V} (d : list (String.string * V)) (key : String.string)
  : outcome V :=
  match dict_lookup d key with
  | Some v => Return v
  | None => Throw (KeyError key)
  end.

(** The truth value of an entry's value in an [if]. *)
Definition truthy (v : entry_value) : bool :=
  match v with
  | Bool b => b
  | Quality [] => false
  | Quality (_ :: _) => true
  | Config _ => true
  end.

(** [result["quality"][key]] *)
Definition quality_of (result : entry) (key : String.string)
  : outcome report_value :=
  match subscript result text.quality with
  | Return (Quality q) => subscript q key
  | Return _ => Throw (KeyError key)
  | Throw e => Throw e
  end.

(** The loop of lines 331-334: the correlations and the names of the tests
    that succeeded. *)
Fixpoint correlation_series (results : list (String.string * entry))
  : outcome (list report_value * list String.string) :=
  match results with
  | [] => Return ([], [])
  | (test_name, result) :: rest =>
      match subscript result text.success with
      | Throw e => Throw e
      | Return s =>
          if truthy s then
            match quality_of result keys.correlation with
            | Throw e => Throw e
            | Return c =>
                match correlation_series rest with
                | Throw e => Throw e
                | Return (cs, names) => Return (c :: cs, test_name :: names)
                end
            end
          else correlation_series rest
      end
  end.

(** The loop of lines 350-353: the THD+N of the original and of the
    processed audio of the tests that succeeded. *)
Fixpoint thd_series (results : list (String.string * entry))
  : outcome (list report_value * list report_value) :=
  match results with
  | [] => Return ([], [])
  | (test_name, result) :: rest =>
      match subscript result text.success with
      | Throw e => Throw e
      | Return s =>
          if truthy s then
            match quality_of result keys.original_thd_n with
            | Throw e => Throw e
            | Return o =>
                match quality_of result keys.processed_thd_n with
                | Throw e => Throw e
                | Return p =>
                    match thd_series rest with
                    | Throw e => Throw e
                    | Return (os, ps) => Return (o :: os, p :: ps)
                    end
                end
            end
          else thd_series rest
      end
  end.

(** [sum(1 for r in results.values() if r["success"])] (line 457). *)
Fixpoint successful_tests (results : list (String.string * entry))
  : outcome nat :=
  match results with
  | [] => Return 0%nat
  | (_, result) :: rest =>
      match subscript result text.success with
      | Throw e => Throw e
      | Return s =>
          match successful_tests rest with
          | Throw e => Throw e
          | Return n => Return (if truthy s then S n else n)
          end
      end
  end.

(** An entry as the consumers of [results] need it: it says whether the
    test succeeded, and with success it has the quality report with all
    its keys. *)
Definition well_formed_entry (result : entry) : Prop :=
  (dict_lookup result text.success = Some (Bool false))
  \/ (dict_lookup result text.success = Some (Bool true)
      /\ exists q, dict_lookup result text.quality = Some (Quality q)
                   /\ map fst q = keys.all).

(** A string without whitespace. *)
Fixpoint no_space (s : String.string) : bool :=
  match s with
  | String.EmptyString => true
  | String.String c s' => negb (is_space c) && no_space s'
  end.

(** A string with its whitespace taken out. *)
Fixpoint remove_spaces (s : String.string) : String.string :=
  match s with
  | String.EmptyString => String.EmptyString
  | String.String c s' =>
      if is_space c then remove_spaces s' else String.String c (remove_spaces s')
  end.

(** The words of a list, one after the other. *)
Definition join (words : list String.string) : String.string :=
  fold_right String.append String.EmptyString words.

(** A word of a command line as [str.split()] gives it: not empty and
    without whitespace. *)
Definition is_word (w : String.string) : Prop :=
  w <> String.EmptyString /\ no_space w = true.

(** A string of ASCII characters only.  On such strings the whitespace of
    [str.split()] is the whitespace of [is_space]; beyond ASCII Python
    knows further whitespace (U+0085, U+00A0 and others). *)
Fixpoint ascii_only (s : String.string) : bool :=
  match s with
  | String.EmptyString => true
  | String.String c s' => (Ascii.nat_of_ascii c <? 128)%nat && ascii_only s'
  end.

(** An environment for running the tester on examples: the libraries are
    there, every random number is 0, every write succeeds, every file
    holds the three samples 1, -1, 1, and nothing is kept of what is
    printed. *)
Definition example_environment : environment := {|
  world := unit;
  AUDIO_LIBS_AVAILABLE := true;
  randn := fun n w => (repeat 0 n, w);
  sf_write := fun _ _ _ w => (None, w);
  librosa_load := fun _ sr w => (inr ([1; -1; 1], sr), w);
  print := fun _ w => w;
  env_spectrogram := fun _ _ _ => Ok ([], [], []);
  env_pearson_statistic := fun _ _ => (Fin 1, Fin 0)
|}.

(** An environment without the audio libraries, and a host whose program
    always ends with return code 1. *)
Definition bare_environment : environment := {|
  world := unit;
  AUDIO_LIBS_AVAILABLE := false;
  randn := fun n w => (repeat 0 n, w);
  sf_write := fun _ _ _ w => (None, w);
  librosa_load := fun _ sr w => (inr ([], sr), w);
  print := fun _ w => w;
  env_spectrogram := fun _ _ _ => Ok ([], [], []);
  env_pearson_statistic := fun _ _ => (Fin 1, Fin 0)
|}.

Definition failing_host (env : environment) : host env := {|
  subprocess_run := fun _ w => (Completed 1 String.EmptyString String.EmptyString, w);
  os_remove := fun _ w => (true, w)
|}.

(** The first test case of [main] (lines 396-402). *)
Definition basic_440hz : test_config := {|
  duration := Some 3;
  frequency := Some 440;
  pitch := Some 440%Z;
  velocity := Some 100%Z;
  options := Some String.EmptyString
|}.

(** An environment in which every file holds no samples, and a host whose
    program always ends with return code 0. *)
Definition empty_file_environment : environment := {|
  world := unit;
  AUDIO_LIBS_AVAILABLE := true;
  randn := fun n w => (repeat 0 n, w);
  sf_write := fun _ _ _ w => (None, w);
  librosa_load := fun _ sr w => (inr ([], sr), w);
  print := fun _ w => w;
  env_spectrogram := fun _ _ _ => Ok ([], [], []);
  env_pearson_statistic := fun _ _ => (Fin 1, Fin 0)
|}.

Definition working_host (env : environment) : host env := {|
  subprocess_run := fun _ w => (Completed 0 String.EmptyString String.EmptyString, w);
  os_remove := fun _ w => (true, w)
|}.

(** A tester as [World4UtauTester(path)] makes it (lines 142-144). *)
Definition new_tester (path : String.string) : World4UtauTester :=
  {| world4utau_path := path; analyzer := new_analyzer |}.

(** * Proofs *)

(** ** Running method bodies *)

Lemma run_ret A (a : A) self : ret a self = (Ok a, self).
Proof. reflexivity. Qed.

Lemma run_bind_ok A B (m : method A) (k : A -> method B) self a self' :
  m self = (Ok a, self') -> bind m k self = k a self'.
Proof. intros H. unfold bind. rewrite H. reflexivity. Qed.

Lemma run_bind_raise A B (m : method A) (k : A -> method B) self e self' :
  m self = (Raise e, self') -> bind m k self = (Raise e, self').
Proof. intros H. unfold bind. rewrite H. reflexivity. Qed.

Lemma read_only_ret A (a : A) : read_only (ret a).
Proof. intros self. reflexivity. Qed.

Lemma read_only_raise A e : read_only (@raise A e).
Proof. intros self. reflexivity. Qed.

Lemma read_only_lift A (r : result A) : read_only (lift r).
Proof. intros self. reflexivity. Qed.

Lemma read_only_get : read_only get_sample_rate.
Proof. intros self. reflexivity. Qed.

Lemma read_only_bind A B (m : method A) (k : A -> method B) :
  read_only m -> (forall a, read_only (k a)) -> read_only (bind m k).
Proof.
  intros Hm Hk self. unfold bind.
  specialize (Hm self). destruct (m self) as [[a | e] self']; simpl in *; subst.
  - apply Hk.
  - reflexivity.
Qed.

Lemma read_only_for_each I A (items : list I) (body : I -> A -> method A) :
  (forall i acc, read_only (body i acc)) ->
  forall acc, read_only (for_each items body acc).
Proof.
  intros Hbody. induction items as [| i items IH]; intros acc; simpl.
  - apply read_only_ret.
  - apply read_only_bind; [apply Hbody | intros acc'; apply IH].
Qed.

Lemma read_only_if A (b : bool) (m1 m2 : method A) :
  read_only m1 -> read_only m2 -> read_only (if b then m1 else m2).
Proof. destruct b; auto. Qed.

Lemma read_only_sumbool A (P Q : Prop) (b : {P} + {Q}) (m1 m2 : method A) :
  read_only m1 -> read_only m2 -> read_only (if b then m1 else m2).
Proof. destruct b; auto. Qed.

Create HintDb pure.

#[local] Hint Resolve read_only_ret read_only_raise read_only_lift read_only_get
  read_only_bind read_only_for_each read_only_if read_only_sumbool : pure.

(** ** Sums of squares *)

Lemma sum_square audio :
  np.sum (np.square audio) = fold_right (fun x s => x * x + s) 0 audio.
Proof. induction audio as [| x audio IH]; simpl; [reflexivity | now rewrite IH]. Qed.

Lemma sum_sq_nonneg audio : 0 <= fold_right (fun x s => x * x + s) 0 audio.
Proof. induction audio as [| x audio IH]; simpl; [lra | nra]. Qed.

Lemma sum_sq_zero audio :
  fold_right (fun x s => x * x + s) 0 audio = 0 <-> silent audio.
Proof.
  unfold silent. induction audio as [| x audio IH]; simpl.
  - split; [constructor | reflexivity].
  - pose proof (sum_sq_nonneg audio) as Hs. split.
    + intros H. assert (x = 0) by nra. constructor; [assumption |].
      apply IH. nra.
    + intros H. inversion H as [| ? ? Hx Ha]; subst.
      apply IH in Ha. rewrite Ha. lra.
Qed.

Lemma INR_length_pos A (a : list A) : a <> [] -> 0 < INR (length a).
Proof.
  destruct a as [| x a]; [congruence | intros _].
  apply lt_0_INR. simpl. lia.
Qed.

Lemma mean_square_nonneg audio : audio <> [] -> 0 <= mean_square audio.
Proof.
  intros H. unfold mean_square. apply Rmult_le_pos; [apply sum_sq_nonneg |].
  left. apply Rinv_0_lt_compat. now apply INR_length_pos.
Qed.

Lemma mean_square_zero audio :
  audio <> [] -> (mean_square audio = 0 <-> silent audio).
Proof.
  intros H. rewrite <- sum_sq_zero. unfold mean_square.
  pose proof (INR_length_pos _ _ H) as Hn.
  pose proof (Rinv_0_lt_compat _ Hn) as Hi.
  unfold Rdiv. split; intros E.
  - apply Rmult_integral in E. destruct E; [assumption | lra].
  - rewrite E. lra.
Qed.

Lemma mean_nonempty audio :
  audio <> [] -> np.mean (np.square audio) = Fin (mean_square audio).
Proof.
  destruct audio as [| x audio]; [congruence | intros _].
  transitivity (Fin (np.sum (np.square (x :: audio))
                     / INR (length (np.square (x :: audio))))); [reflexivity |].
  rewrite sum_square. unfold np.square. rewrite length_map. reflexivity.
Qed.

Lemma mean_power audio : np.mean (np.square audio) = power audio.
Proof.
  unfold power. destruct audio as [| x audio]; [reflexivity |].
  rewrite mean_nonempty by congruence. reflexivity.
Qed.

(** ** RMS *)

Lemma calculate_rms_nonempty audio self :
  audio <> [] ->
  calculate_rms audio self = (Ok (Fin (sqrt (mean_square audio))), self).
Proof.
  intros H. unfold calculate_rms. rewrite mean_nonempty by assumption.
  unfold np.sqrt. pose proof (mean_square_nonneg _ H).
  destruct (Rlt_dec (mean_square audio) 0); [lra | reflexivity].
Qed.

Lemma calculate_rms_empty self : calculate_rms [] self = (Ok NaN, self).
Proof. reflexivity. Qed.

(** ** Samples in range *)

Lemma in_range_one : in_range [1].
Proof.
  constructor; [| constructor]. right. unfold sample_limit.
  rewrite Rabs_R1. lra.
Qed.

(** C7, as the code has it: for every buffer with at least one sample and
    with samples in range, [calculate_rms] returns the square root of the
    mean of the squared samples; that value is not negative, and it is 0
    exactly when every sample is 0. *)
Theorem rms_of_buffer_in_range audio self :
  audio <> [] -> in_range audio -> rms_property audio self.
Proof.
  intros H _. exists (sqrt (mean_square audio)).
  rewrite calculate_rms_nonempty by assumption. simpl.
  repeat split.
  - apply sqrt_pos.
  - intros E. apply mean_square_zero; [assumption |].
    apply sqrt_eq_0; [now apply mean_square_nonneg | assumption].
  - intros Hs. apply (mean_square_zero _ H) in Hs. rewrite Hs. apply sqrt_0.
Qed.

Lemma rms_of_buffer_in_range_witness :
  [1] <> [] /\ in_range [1] /\ rms_property [1] new_analyzer.
Proof.
  split; [discriminate |]. split; [exact in_range_one |].
  apply rms_of_buffer_in_range; [discriminate | exact in_range_one].
Defined.

(** In binary64 the one sample 2^-600 has the square 0.0, and with it the
    RMS 0.0. *)
Lemma rms_of_tiny_sample :
  float64.calculate_rms [float64.tiny] = Some PrimFloat.zero.
Proof. vm_compute. reflexivity. Qed.

(** C7 fails in two places.  For the buffer without samples the mean of an
    empty array is NaN, so the RMS is NaN and no real number at all,
    although every sample of the empty buffer is 0.  And the RMS of the
    one sample 2^-600 is 0.0 in binary64, because its square is rounded to
    zero, although the sample is not 0. *)
Lemma rms_of_empty_or_tiny_buffer :
  ~ rms_property [] new_analyzer
  /\ ~ float64.rms_zero_only_when_silent [float64.tiny].
Proof.
  split.
  - intros [v [H _]]. rewrite calculate_rms_empty in H. discriminate H.
  - intros H. specialize (H PrimFloat.zero rms_of_tiny_sample eq_refl).
    vm_compute in H. discriminate H.
Qed.

(** ** Peak level *)

Lemma max_from_ge m a : m <= np.max_from m a.
Proof.
  revert m. induction a as [| x a IH]; intros m; simpl; [lra |].
  eapply Rle_trans; [apply (Rmax_l m x) | apply IH].
Qed.

Lemma max_from_upper m a x : In x a -> x <= np.max_from m a.
Proof.
  revert m. induction a as [| y a IH]; intros m Hin; simpl in *; [contradiction |].
  destruct Hin as [E | H].
  - subst. eapply Rle_trans; [apply (Rmax_r m x) | apply max_from_ge].
  - now apply IH.
Qed.

Lemma max_from_in m a : In (np.max_from m a) (m :: a).
Proof.
  revert m. induction a as [| y a IH]; intros m; simpl; [now left |].
  destruct (IH (Rmax m y)) as [E | H].
  - rewrite <- E. unfold Rmax. destruct (Rle_dec m y); auto.
  - auto.
Qed.

Lemma max_abs_peak x audio :
  max_abs (x :: audio) (np.max_from (Rabs x) (np.abs audio)).
Proof.
  split.
  - pose proof (max_from_in (Rabs x) (np.abs audio)) as H.
    change (Rabs x :: np.abs audio) with (map Rabs (x :: audio)) in H.
    apply in_map_iff in H. destruct H as [y [E Hy]]. exists y. auto.
  - intros y [E | Hy].
    + subst. apply max_from_ge.
    + apply max_from_upper. unfold np.abs. now apply in_map.
Qed.

Lemma max_abs_zero audio m : max_abs audio m -> (m = 0 <-> silent audio).
Proof.
  intros [[x [Hx Em]] Hup]. unfold silent. rewrite Forall_forall. split.
  - intros E y Hy. specialize (Hup y Hy). rewrite E in Hup.
    pose proof (Rabs_pos y). destruct (Req_dec_T y 0) as [| Hn]; [assumption |].
    apply Rabs_pos_lt in Hn. lra.
  - intros Hs. rewrite Em, (Hs x Hx). apply Rabs_R0.
Qed.

Lemma max_abs_le_1 audio m : max_abs audio m -> normalized audio -> m <= 1.
Proof.
  intros [[x [Hx Em]] _] Hn. unfold normalized in Hn. rewrite Forall_forall in Hn.
  specialize (Hn x Hx). subst. apply Rabs_le. lra.
Qed.

Lemma ln_10_pos : 0 < ln 10.
Proof. rewrite <- ln_1. apply ln_increasing; lra. Qed.

Lemma Rlog10_le_0 x : 0 < x -> x <= 1 -> np.Rlog10 x <= 0.
Proof.
  intros Hx Hle. unfold np.Rlog10.
  assert (ln x <= 0) as Hl.
  { destruct Hle as [Hlt | E].
    - left. rewrite <- ln_1. now apply ln_increasing.
    - subst. rewrite ln_1. lra. }
  pose proof ln_10_pos as H10. pose proof (Rinv_0_lt_compat _ H10).
  unfold Rdiv. nra.
Qed.

Lemma calculate_peak_level_nonempty x audio self :
  let peak := np.max_from (Rabs x) (np.abs audio) in
  calculate_peak_level (x :: audio) self
  = (Ok (np.scale 20 (np.log10 (Fin peak))), self).
Proof.
  intros peak. unfold calculate_peak_level, bind, lift. simpl np.max. fold peak.
  unfold np.log10.
  destruct (Req_dec_T peak 0) as [E | Hn]; unfold ret.
  - destruct (Rlt_dec peak 0); [lra | reflexivity].
  - reflexivity.
Qed.

Lemma calculate_peak_level_empty self :
  calculate_peak_level [] self = (Raise (ValueError ZeroSizeReduction), self).
Proof. reflexivity. Qed.

(** C6, as the code has it: for every buffer with at least one sample,
    [calculate_peak_level] returns [20 * log10] of the largest absolute
    sample value; the result is minus infinity exactly when every sample
    is 0, and it is at most 0 when every sample lies in [-1, 1]. *)
Theorem peak_level_of_nonempty_buffer audio self :
  audio <> [] -> peak_level_property audio self.
Proof.
  destruct audio as [| x audio]; [congruence | intros _].
  pose proof (max_abs_peak x audio) as Hmax.
  set (peak := np.max_from (Rabs x) (np.abs audio)) in *.
  assert (0 <= peak) as Hpos.
  { eapply Rle_trans; [apply (Rabs_pos x) | apply max_from_ge]. }
  exists (np.scale 20 (np.log10 (Fin peak))).
  rewrite calculate_peak_level_nonempty. fold peak.
  split; [reflexivity |]. split; [exists peak; auto |].
  unfold np.log10.
  destruct (Rlt_dec peak 0) as [Hneg | _]; [lra |].
  destruct (Req_dec_T peak 0) as [E | Hn]; simpl.
  - split.
    + split; [intros _; now apply (max_abs_zero _ _ Hmax) | reflexivity].
    + intros _. exact I.
  - split.
    + split; [discriminate |].
      intros Hs. apply (max_abs_zero _ _ Hmax) in Hs. contradiction.
    + intros Hnorm. pose proof (max_abs_le_1 _ _ Hmax Hnorm).
      assert (np.Rlog10 peak <= 0) by (apply Rlog10_le_0; lra). lra.
Qed.

Lemma peak_level_of_nonempty_buffer_witness :
  [1] <> [] /\ peak_level_property [1] new_analyzer.
Proof.
  split; [discriminate | apply peak_level_of_nonempty_buffer; discriminate].
Defined.

(** C6 fails for the buffer without samples: [np.max] of an empty array
    raises [ValueError], so the method returns nothing, although every
    sample of the empty buffer is 0 and lies in [-1, 1]. *)
Lemma peak_level_of_empty_buffer : ~ peak_level_property [] new_analyzer.
Proof.
  intros [v [H _]]. rewrite calculate_peak_level_empty in H. discriminate H.
Qed.

(** ** Signal-to-noise ratio *)

Lemma calculate_snr_value signal_audio noise_audio self :
  calculate_snr signal_audio noise_audio self
  = (Ok (snr_spec signal_audio noise_audio), self).
Proof.
  unfold calculate_snr, snr_spec. rewrite !mean_power.
  destruct (np.eq0 (power noise_audio)); reflexivity.
Qed.

(** C4, as the code has it: for buffers of equal length with samples in
    range, [calculate_snr] returns [10 * log10(signalPower / noisePower)],
    each power being the mean of the squared samples, and plus infinity
    when the power of the noise buffer is exactly zero. *)
Theorem snr_of_buffers_in_range signal_audio noise_audio self :
  length signal_audio = length noise_audio ->
  in_range signal_audio -> in_range noise_audio ->
  fst (calculate_snr signal_audio noise_audio self)
  = Ok (snr_spec signal_audio noise_audio)
  /\ (power noise_audio = Fin 0 ->
      fst (calculate_snr signal_audio noise_audio self) = Ok PosInf)
  /\ (signal_audio <> [] -> mean_square noise_audio <> 0 ->
      fst (calculate_snr signal_audio noise_audio self)
      = Ok (np.scale 10
              (np.log10 (Fin (mean_square signal_audio / mean_square noise_audio))))).
Proof.
  intros Hlen _ _. rewrite calculate_snr_value. simpl.
  split; [reflexivity |]. split.
  - intros Hz. unfold snr_spec. rewrite Hz. unfold np.eq0.
    destruct (Req_dec_T 0 0); [reflexivity | congruence].
  - intros Hs Hn. unfold snr_spec, power. rewrite <- Hlen.
    destruct signal_audio as [| x s]; [congruence |]. simpl Nat.eqb. cbv iota.
    unfold np.eq0, np.div.
    destruct (Req_dec_T (mean_square noise_audio) 0); [contradiction | reflexivity].
Qed.

Lemma in_range_one_zero : in_range [1; 0].
Proof.
  constructor; [right; unfold sample_limit; rewrite Rabs_R1; lra |].
  constructor; [now left | constructor].
Qed.

Lemma in_range_zeros : in_range [0; 0].
Proof. repeat constructor. Qed.

Lemma snr_of_buffers_in_range_witness :
  length [1; 0] = length [0; 0]
  /\ in_range [1; 0] /\ in_range [0; 0]
  /\ fst (calculate_snr [1; 0] [0; 0] new_analyzer) = Ok PosInf.
Proof.
  split; [reflexivity |]. split; [exact in_range_one_zero |].
  split; [exact in_range_zeros |].
  apply (snr_of_buffers_in_range [1; 0] [0; 0] new_analyzer eq_refl
           in_range_one_zero in_range_zeros).
  unfold power, mean_square. simpl. f_equal. lra.
Defined.

(** C4 fails for the one sample 2^-600 against itself: the mean square of
    the noise is 2^-1200 and not zero, and the quotient of the two powers
    is 1; in binary64 the square is rounded to 0.0, the noise power is
    0.0, and the method returns plus infinity. *)
Lemma snr_of_tiny_sample_against_itself :
  ~ float64.snr_is_a_ratio [float64.tiny] [float64.tiny].
Proof.
  intros H. destruct (H eq_refl) as [ratio E]. vm_compute in E. discriminate E.
Qed.




(** ** Correlation *)

Lemma slice_prefix A (a : list A) (m : Z) :
  (0 <= m)%Z -> py.slice a 0 m = firstn (Nat.min (Z.to_nat m) (length a)) a.
Proof.
  intros Hm. unfold py.slice, py.bound, py.len. simpl (0 <? 0)%Z. cbv iota.
  destruct (Z.ltb_spec m 0) as [Hneg | _]; [lia |].
  replace (Z.to_nat (Z.min 0 (Z.of_nat (length a)))) with 0%nat by lia.
  rewrite Nat.sub_0_r. simpl skipn. f_equal. lia.
Qed.

Lemma slice_min_len A (a b : list A) :
  py.slice a 0 (Z.min (py.len a) (py.len b))
  = firstn (Nat.min (length a) (length b)) a.
Proof.
  rewrite slice_prefix by (unfold py.len; lia). f_equal. unfold py.len. lia.
Qed.

Section CorrelationProofs.

Variable pearson_statistic : list R -> list R -> npfloat * npfloat.

Lemma calculate_correlation_run audio1 audio2 self :
  let m := Nat.min (length audio1) (length audio2) in
  calculate_correlation pearson_statistic audio1 audio2 self
  = (pearsonr pearson_statistic (firstn m audio1) (firstn m audio2), self).
Proof.
  intros m. unfold calculate_correlation.
  rewrite slice_min_len. rewrite (Z.min_comm (py.len audio1)), slice_min_len.
  rewrite (Nat.min_comm (length audio2)). fold m.
  unfold bind, lift.
  destruct (pearsonr pearson_statistic (firstn m audio1) (firstn m audio2))
    as [[c p] | e]; reflexivity.
Qed.

Lemma pearsonr_long_enough x y :
  length x = length y -> (2 <= length x)%nat ->
  pearsonr pearson_statistic x y = Ok (pearson_statistic x y).
Proof.
  intros H H2. unfold pearsonr, py.len. rewrite H, Z.eqb_refl. simpl.
  destruct (Z.ltb_spec (Z.of_nat (length y)) 2); [lia | reflexivity].
Qed.

Lemma pearsonr_too_short x y :
  length x = length y -> (length x < 2)%nat ->
  pearsonr pearson_statistic x y = Raise (ValueError PearsonTooShort).
Proof.
  intros H H2. unfold pearsonr, py.len. rewrite H, Z.eqb_refl. simpl.
  destruct (Z.ltb_spec (Z.of_nat (length y)) 2); [reflexivity | lia].
Qed.

(** C5, as the code has it: [calculate_correlation] cuts both buffers to
    the length [m] of the shorter one and hands the two prefixes to
    [pearsonr]; the analyzer is left as it was.  With at least two samples
    in the shorter buffer the method returns the statistic of the two
    prefixes and raises nothing, whatever the lengths of the buffers are.
    With fewer than two samples in the shorter buffer [pearsonr] raises
    [ValueError] for being too short, also when both buffers have one
    length. *)
Theorem correlation_of_buffers audio1 audio2 self :
  let m := Nat.min (length audio1) (length audio2) in
  ((2 <= m)%nat ->
   correlation_property pearson_statistic audio1 audio2 self
   /\ snd (calculate_correlation pearson_statistic audio1 audio2 self) = self)
  /\ ((m < 2)%nat ->
      calculate_correlation pearson_statistic audio1 audio2 self
      = (Raise (ValueError PearsonTooShort), self)).
Proof.
  intros m. unfold correlation_property. fold m.
  rewrite calculate_correlation_run. fold m. simpl fst. simpl snd.
  assert (length (firstn m audio1) = m) as H1 by (rewrite length_firstn; lia).
  assert (length (firstn m audio2) = m) as H2 by (rewrite length_firstn; lia).
  split.
  - intros Hm. split; [| reflexivity].
    apply pearsonr_long_enough; [congruence | lia].
  - intros Hm. f_equal. apply pearsonr_too_short; [congruence | lia].
Qed.

End CorrelationProofs.

(** Buffers of 3 and 5 samples: the statistic is taken over 3 and 3. *)
Lemma correlation_of_buffers_witness :
  fst (calculate_correlation (fun x y => (Fin (np.sum x), Fin (np.sum y)))
         [1; 2; 3] [3; 2; 1; 0; 5] new_analyzer)
  = Ok (Fin (np.sum [1; 2; 3]), Fin (np.sum [3; 2; 1])).
Proof.
  apply (correlation_of_buffers
           (fun x y => (Fin (np.sum x), Fin (np.sum y)))
           [1; 2; 3] [3; 2; 1; 0; 5] new_analyzer).
  simpl. lia.
Defined.

(** C5 fails for a buffer of one sample against a buffer of two: the
    buffers are cut to one sample each, and [pearsonr] refuses them with
    [ValueError], so no correlation is returned. *)
Lemma correlation_of_one_sample :
  ~ correlation_property (fun x y => (Fin (np.sum x), Fin (np.sum y)))
      [1] [1; 2] new_analyzer.
Proof.
  unfold correlation_property. rewrite calculate_correlation_run.
  intros H. discriminate H.
Qed.

(** ** Purity *)

Lemma read_only_calculate_snr s n : read_only (calculate_snr s n).
Proof. unfold calculate_snr. auto with pure. Qed.

Lemma read_only_calculate_rms a : read_only (calculate_rms a).
Proof. unfold calculate_rms. auto with pure. Qed.

Lemma read_only_calculate_peak_level a : read_only (calculate_peak_level a).
Proof. unfold calculate_peak_level. auto 6 with pure. Qed.

Lemma read_only_calculate_thd_n a f : read_only (calculate_thd_n a f).
Proof.
  unfold calculate_thd_n.
  repeat (first [ apply read_only_bind | apply read_only_for_each
                | apply read_only_if | apply read_only_sumbool
                | apply read_only_ret | apply read_only_raise
                | apply read_only_lift | apply read_only_get | intro ]).
Qed.

Lemma read_only_calculate_dynamic_range a : read_only (calculate_dynamic_range a).
Proof.
  unfold calculate_dynamic_range.
  repeat (first [ apply read_only_calculate_rms
                | apply read_only_bind | apply read_only_for_each
                | apply read_only_if | apply read_only_sumbool
                | apply read_only_ret | apply read_only_raise
                | apply read_only_lift | apply read_only_get | intro ]).
Qed.

Lemma read_only_calculate_frequency_response spectrogram a :
  read_only (calculate_frequency_response spectrogram a).
Proof.
  unfold calculate_frequency_response.
  apply read_only_bind; [apply read_only_get | intros sr].
  apply read_only_bind; [apply read_only_lift | intros [[f t] Sxx]].
  apply read_only_ret.
Qed.

Lemma read_only_calculate_correlation stat a b :
  read_only (calculate_correlation stat a b).
Proof.
  unfold calculate_correlation.
  apply read_only_bind; [apply read_only_lift | intros [c p]].
  apply read_only_ret.
Qed.

(** What the embedding shows of C8: no metric method assigns an
    attribute, so a metric call ends with the attributes of the analyzer
    it started from, also when it raises.  That the outcome is the same
    for equal arguments on analyzers of one sample rate, and on every
    repetition of the call, is then so by the form of the embedding, in
    which a method is a function of its arguments and of the attributes,
    and the functions of numpy and scipy are functions of their
    arguments. *)
Theorem metric_calls_are_pure spectrogram stat (c : metric_call) :
  (forall self, snd (call spectrogram stat c self) = self)
  /\ (forall self1 self2,
        sample_rate self1 = sample_rate self2 ->
        fst (call spectrogram stat c self1) = fst (call spectrogram stat c self2))
  /\ (forall self,
        let '(first, self') := call spectrogram stat c self in
        call spectrogram stat c self' = (first, self')).
Proof.
  assert (read_only (call spectrogram stat c)) as Hro.
  { destruct c; simpl; apply read_only_bind;
      first [ intros ?; apply read_only_ret
            | apply read_only_calculate_snr | apply read_only_calculate_thd_n
            | apply read_only_calculate_frequency_response
            | apply read_only_calculate_correlation
            | apply read_only_calculate_rms | apply read_only_calculate_peak_level
            | apply read_only_calculate_dynamic_range ]. }
  split; [exact Hro |]. split.
  - intros [sr1] [sr2] H. simpl in H. subst. reflexivity.
  - intros self. pose proof (Hro self) as H.
    destruct (call spectrogram stat c self) as [first self'] eqn:E.
    simpl in H. subst self'. assumption.
Qed.

(** Two RMS calls in a row on one analyzer. *)
Lemma metric_calls_are_pure_witness :
  let spectrogram := fun (_ : list R) (_ _ : Z) =>
                       @Ok (list R * list R * list (list R)) ([], [], []) in
  let stat := fun (_ _ : list R) => (NaN, NaN) in
  snd (call spectrogram stat (CallRms [1]) new_analyzer) = new_analyzer
  /\ fst (call spectrogram stat (CallRms [1])
            (snd (call spectrogram stat (CallRms [1]) new_analyzer)))
     = fst (call spectrogram stat (CallRms [1]) new_analyzer).
Proof.
  intros spectrogram stat.
  destruct (metric_calls_are_pure spectrogram stat (CallRms [1])) as [Hst [Hdet _]].
  split; [apply Hst |]. apply Hdet. rewrite Hst. reflexivity.
Defined.

(** ** THD+N *)

Lemma nth_map_lt A B (f : A -> B) (l : list A) (j : nat) d d' :
  (j < length l)%nat -> nth j (map f l) d' = f (nth j l d).
Proof.
  intros H. rewrite (nth_indep _ d' (f d)) by (now rewrite length_map).
  apply map_nth.
Qed.

Lemma argmin_from_spec (l : list R) :
  forall a pre best m,
    l = pre ++ a ->
    (best < length pre)%nat ->
    nth best l 0 = m ->
    (forall j, (j < length pre)%nat -> m <= nth j l 0) ->
    let r := np.argmin_from best m (length pre) a in
    (r < length l)%nat /\ forall j, (j < length l)%nat -> nth r l 0 <= nth j l 0.
Proof.
  induction a as [| x a IH]; intros pre best m El Hb Hm Hmin; simpl.
  - rewrite app_nil_r in El. subst l. split; [assumption |].
    intros j Hj. rewrite Hm. now apply Hmin.
  - assert (l = (pre ++ [x]) ++ a) as El' by (rewrite <- app_assoc; exact El).
    assert (length (pre ++ [x]) = S (length pre)) as Hlen
      by (rewrite length_app; simpl; lia).
    assert (nth (length pre) l 0 = x) as Hx
      by (rewrite El; rewrite app_nth2 by lia; now rewrite Nat.sub_diag).
    destruct (Rlt_dec x m) as [Hlt | Hge].
    + specialize (IH (pre ++ [x]) (length pre) x El').
      rewrite Hlen in IH. apply IH; [lia | exact Hx |].
      intros j Hj. destruct (Nat.eq_dec j (length pre)) as [-> | Hne].
      * rewrite Hx. lra.
      * assert (m <= nth j l 0) by (apply Hmin; lia). lra.
    + specialize (IH (pre ++ [x]) best m El').
      rewrite Hlen in IH. apply IH; [lia | exact Hm |].
      intros j Hj. destruct (Nat.eq_dec j (length pre)) as [-> | Hne].
      * rewrite Hx. lra.
      * apply Hmin. lia.
Qed.

Lemma argmin_spec (l : list R) :
  l <> [] ->
  exists k, np.argmin l = Ok k
            /\ (k < length l)%nat
            /\ forall j, (j < length l)%nat -> nth k l 0 <= nth j l 0.
Proof.
  destruct l as [| x a]; [congruence | intros _].
  exists (np.argmin_from 0 x 1 a). split; [reflexivity |].
  apply (argmin_from_spec (x :: a) a [x] 0%nat x); simpl; try reflexivity; try lia.
  intros j Hj. assert (j = 0%nat) by lia. subst. simpl. lra.
Qed.

Lemma nearest_bin_spec (freqs : list R) (f : R) :
  freqs <> [] ->
  exists k, nearest_bin freqs f = Ok k
            /\ (k < length freqs)%nat
            /\ forall j, (j < length freqs)%nat ->
                 Rabs (nth k freqs 0 - f) <= Rabs (nth j freqs 0 - f).
Proof.
  intros H. unfold nearest_bin.
  set (l := np.abs (map (fun fr => fr - f) freqs)).
  assert (length l = length freqs) as Hlen
    by (unfold l, np.abs; now rewrite !length_map).
  assert (forall j, (j < length freqs)%nat -> nth j l 0 = Rabs (nth j freqs 0 - f))
    as Hnth.
  { intros j Hj. unfold l, np.abs.
    rewrite (nth_map_lt _ _ Rabs _ j 0 0) by (now rewrite length_map).
    now rewrite (nth_map_lt _ _ (fun fr => fr - f) _ j 0 0). }
  destruct (argmin_spec l) as [k [E [Hk Hmin]]].
  { destruct freqs; [congruence | discriminate]. }
  exists k. rewrite Hlen in *. split; [assumption |]. split; [assumption |].
  intros j Hj. rewrite <- !Hnth by assumption. now apply Hmin.
Qed.

Lemma length_bins n : (1 <= n)%nat -> length (fft.bins n) = n.
Proof.
  intros H. unfold fft.bins. rewrite length_app, !length_map, !length_seq.
  pose proof (Nat.div_mod_eq (n - 1) 2) as H1.
  pose proof (Nat.div_mod_eq n 2) as H2.
  pose proof (Nat.mod_upper_bound (n - 1) 2 ltac:(lia)) as H3.
  pose proof (Nat.mod_upper_bound n 2 ltac:(lia)) as H4.
  destruct (Nat.Even_or_Odd n) as [[q Hq] | [q Hq]]; lia.
Qed.

Lemma fftfreq_run n sr :
  (1 <= n)%nat -> sr <> 0%Z ->
  exists freqs, fft.fftfreq n (1 / IZR sr) = Ok freqs /\ length freqs = n.
Proof.
  intros Hn Hsr. unfold fft.fftfreq.
  assert (INR n * (1 / IZR sr) <> 0) as Hprod.
  { apply Rmult_integral_contrapositive. split.
    - apply not_0_INR. lia.
    - unfold Rdiv. rewrite Rmult_1_l. apply Rinv_neq_0_compat. now apply eq_IZR_contrapositive. }
  destruct (Req_dec_T (INR n * (1 / IZR sr)) 0); [contradiction |].
  eexists. split; [reflexivity |]. rewrite length_map. now apply length_bins.
Qed.

Lemma bin_power_nonneg audio k : 0 <= bin_power audio k.
Proof. unfold bin_power. simpl. nra. Qed.

Lemma power_at_magnitude audio k :
  (k < length audio)%nat ->
  power_at (fft.abs (map (fun j => fft.bin_from (length audio) j 0 audio)
                         (seq 0 (length audio)))) k
  = bin_power audio k.
Proof.
  intros Hk. unfold power_at, fft.abs. rewrite map_map.
  rewrite (nth_map_lt _ _ _ _ k 0%nat 0) by (now rewrite length_seq).
  rewrite seq_nth by assumption. simpl. apply sqrt_sqrt.
  apply bin_power_nonneg.
Qed.

Lemma total_power_magnitude audio :
  np.sum (np.square (fft.abs (map (fun j => fft.bin_from (length audio) j 0 audio)
                                  (seq 0 (length audio)))))
  = total_power audio.
Proof.
  unfold total_power, np.square, fft.abs. rewrite !map_map. f_equal.
  apply map_ext. intros k. apply sqrt_sqrt. apply (bin_power_nonneg audio k).
Qed.

Lemma sum_ge_member (l : list R) y :
  (forall x, In x l -> 0 <= x) -> In y l -> y <= np.sum l.
Proof.
  induction l as [| x l IH]; intros Hpos Hin; simpl in *; [contradiction |].
  assert (0 <= np.sum l) as Hs.
  { clear IH Hin. induction l as [| z l IHl]; simpl; [lra |].
    assert (0 <= z) by (apply Hpos; simpl; auto).
    assert (0 <= np.sum l) by (apply IHl; intros w Hw; apply Hpos; simpl in *; tauto).
    lra. }
  destruct Hin as [E | Hin].
  - subst. lra.
  - assert (0 <= x) by (apply Hpos; auto).
    assert (y <= np.sum l) by (apply IH; auto). lra.
Qed.

Lemma bin_power_le_total audio k :
  (k < length audio)%nat -> bin_power audio k <= total_power audio.
Proof.
  intros Hk. unfold total_power. apply sum_ge_member.
  - intros x Hx. apply in_map_iff in Hx. destruct Hx as [j [E _]]. subst.
    apply bin_power_nonneg.
  - apply in_map. apply in_seq. lia.
Qed.

Lemma for_each_ok I A (body : I -> A -> method A) :
  (forall i acc self, exists acc', body i acc self = (Ok acc', self)) ->
  forall items acc self, exists r, for_each items body acc self = (Ok r, self).
Proof.
  intros Hbody. induction items as [| i items IH]; intros acc self; simpl.
  - exists acc. reflexivity.
  - destruct (Hbody i acc self) as [acc' E]. unfold bind. rewrite E. apply IH.
Qed.

Lemma thd_n_ratio_nonneg audio k :
  (k < length audio)%nat -> bin_power audio k <> 0 ->
  0 <= (total_power audio - bin_power audio k) / bin_power audio k.
Proof.
  intros Hk Hnz. pose proof (bin_power_nonneg audio k).
  pose proof (bin_power_le_total audio k Hk).
  apply Rmult_le_pos; [lra |]. left. apply Rinv_0_lt_compat. lra.
Qed.

(** The run of [calculate_thd_n] on a buffer with samples at a sample rate
    that is not zero. *)
Lemma calculate_thd_n_run audio fundamental_freq self :
  audio <> [] -> sample_rate self <> 0%Z ->
  exists freqs k,
    fft.fftfreq (length audio) (1 / IZR (sample_rate self)) = Ok freqs
    /\ length freqs = length audio
    /\ nearest_bin freqs fundamental_freq = Ok k
    /\ (k < length audio)%nat
    /\ (forall j, (j < length audio)%nat ->
          Rabs (nth k freqs 0 - fundamental_freq)
          <= Rabs (nth j freqs 0 - fundamental_freq))
    /\ calculate_thd_n audio fundamental_freq self
       = (Ok (thd_n_formula (bin_power audio k) (total_power audio)), self).
Proof.
  intros Hne Hsr.
  assert (1 <= length audio)%nat as Hn by (destruct audio; [congruence | simpl; lia]).
  destruct (fftfreq_run _ _ Hn Hsr) as [freqs [Efreq Hlen]].
  destruct (nearest_bin_spec freqs fundamental_freq) as [k [Ek [Hk Hmin]]].
  { destruct freqs; [simpl in Hlen; lia | discriminate]. }
  rewrite Hlen in Hk, Hmin.
  exists freqs, k. repeat (split; [assumption |]).
  unfold calculate_thd_n.
  assert (fft.fft audio
          = Ok (map (fun j => fft.bin_from (length audio) j 0 audio)
                    (seq 0 (length audio)))) as Efft
    by (destruct audio; [congruence | reflexivity]).
  rewrite Efft. unfold bind at 1. unfold lift at 1.
  unfold bind at 1. unfold get_sample_rate at 1.
  unfold bind at 1.
  destruct (Z.eqb_spec (sample_rate self) 0) as [E0 | _]; [contradiction |].
  unfold ret at 1. unfold bind at 1. unfold lift at 1. rewrite Efreq.
  unfold bind at 1. unfold lift at 1. rewrite Ek.
  match goal with
  | |- bind (for_each ?items ?body ?acc) _ _ = _ =>
      assert (exists hp, for_each items body acc self = (Ok hp, self)) as [hp Ehp];
        [apply for_each_ok |]
  end.
  { intros harmonic acc self0. unfold bind, get_sample_rate.
    destruct (Rlt_dec (fundamental_freq * harmonic) (IZR (sample_rate self0) / 2)).
    - destruct (nearest_bin_spec freqs (fundamental_freq * harmonic)) as [h [Eh _]].
      { destruct freqs; [simpl in Hlen; lia | discriminate]. }
      unfold lift. rewrite Eh. eexists. reflexivity.
    - eexists. reflexivity. }
  unfold bind at 1. rewrite Ehp.
  rewrite power_at_magnitude by assumption. rewrite total_power_magnitude.
  unfold thd_n_formula.
  destruct (Req_dec_T (bin_power audio k) 0) as [Ez | Hnz]; [reflexivity |].
  unfold ret, np.sqrt.
  pose proof (thd_n_ratio_nonneg audio k Hk Hnz) as Hratio.
  destruct (Rlt_dec _ 0) as [Hneg | _]; [lra |].
  simpl. rewrite Rmult_comm. reflexivity.
Qed.




Lemma new_analyzer_rate : sample_rate new_analyzer = 44100%Z.
Proof. reflexivity. Qed.

Lemma new_analyzer_rate_nonzero : sample_rate new_analyzer <> 0%Z.
Proof. rewrite new_analyzer_rate. discriminate. Qed.

Lemma usual_rate_new_analyzer : usual_rate new_analyzer.
Proof. split; [exact new_analyzer_rate_nonzero | rewrite new_analyzer_rate; lia]. Qed.









Lemma in_band_440 : in_band 440.
Proof. unfold in_band, sample_limit. rewrite Rabs_right; lra. Qed.










(** ** Dynamic range *)

(** [int(0.1 * sample_rate)] is the tenth of the sample rate, rounded
    down. *)
Lemma py_int_tenth sr : (0 <= sr)%Z -> py.int (0.1 * IZR sr) = (sr / 10)%Z.
Proof.
  intros Hsr. unfold py.int.
  pose proof (IZR_le _ _ Hsr) as H0.
  destruct (Rle_dec 0 (0.1 * IZR sr)) as [_ | Hn]; [| exfalso; apply Hn; lra].
  symmetry. apply Int_part_spec.
  pose proof (Z.div_mod sr 10 ltac:(lia)) as Hdm.
  pose proof (Z.mod_pos_bound sr 10 ltac:(lia)) as [Hlo Hhi].
  apply IZR_le in Hlo. apply IZR_lt in Hhi.
  assert (IZR sr = 10 * IZR (sr / 10) + IZR (sr mod 10)) as E.
  { rewrite Hdm at 1. rewrite plus_IZR, mult_IZR. reflexivity. }
  rewrite E. lra.
Qed.

Lemma window_size_default : py.int (0.1 * IZR (sample_rate new_analyzer)) = 4410%Z.
Proof. rewrite new_analyzer_rate, py_int_tenth by lia. reflexivity. Qed.

(** The product is the double 4410.0 exactly, so [int] truncates the same
    number in binary64 as in the model over the reals. *)
Lemma window_size_binary64 : binary64.is_4410 binary64.default_window = true.
Proof. reflexivity. Qed.

Lemma range_windows len w :
  (0 < w)%Z ->
  py.range 0 (len - w) w
  = Ok (map (fun k => (Z.of_nat k * w)%Z) (seq 0 (Z.to_nat ((len - 1) / w)))).
Proof.
  intros Hw. unfold py.range.
  destruct (Z.eqb_spec w 0) as [E | _]; [lia |].
  destruct (Z.ltb_spec 0 w) as [_ | Hn]; [| lia].
  replace (len - w - 0 + w - 1)%Z with (len - 1)%Z by lia. reflexivity.
Qed.

Lemma windows_count (L wn : nat) :
  (0 < wn)%nat ->
  Z.to_nat ((Z.of_nat L - 1) / Z.of_nat wn) = ((L - 1) / wn)%nat.
Proof.
  intros Hw. destruct L as [| L'].
  - simpl Z.of_nat. simpl Nat.sub. rewrite Nat.Div0.div_0_l.
    assert ((0 - 1) / Z.of_nat wn < 0)%Z; [| lia].
    apply Z.div_lt_upper_bound; lia.
  - replace (Z.of_nat (S L') - 1)%Z with (Z.of_nat L') by lia.
    replace (S L' - 1)%nat with L' by lia.
    rewrite <- Nat2Z.inj_div. apply Nat2Z.id.
Qed.

Lemma window_in_range (L wn k : nat) :
  (0 < wn)%nat -> (k < (L - 1) / wn)%nat -> (k * wn + wn < L)%nat.
Proof.
  intros Hw Hk.
  pose proof (Nat.div_mod_eq (L - 1) wn) as Hdm.
  assert (wn * S k <= wn * ((L - 1) / wn))%nat by (apply Nat.mul_le_mono_l; lia).
  nia.
Qed.

Lemma slice_window (audio : list R) (k wn : nat) :
  (k * wn + wn <= length audio)%nat ->
  py.slice audio (Z.of_nat k * Z.of_nat wn)
                 (Z.of_nat k * Z.of_nat wn + Z.of_nat wn)
  = firstn wn (skipn (k * wn) audio).
Proof.
  intros Hb. unfold py.slice, py.bound, py.len.
  destruct (Z.ltb_spec (Z.of_nat k * Z.of_nat wn) 0) as [Hneg | _]; [lia |].
  destruct (Z.ltb_spec (Z.of_nat k * Z.of_nat wn + Z.of_nat wn) 0) as [Hneg | _];
    [lia |].
  replace (Z.to_nat (Z.min (Z.of_nat k * Z.of_nat wn) (Z.of_nat (length audio))))
    with (k * wn)%nat by lia.
  replace (Z.to_nat (Z.min (Z.of_nat k * Z.of_nat wn + Z.of_nat wn)
                           (Z.of_nat (length audio))))
    with (k * wn + wn)%nat by lia.
  f_equal. lia.
Qed.

Lemma window_nonempty (audio : list R) (k wn : nat) :
  (0 < wn)%nat -> (k * wn + wn <= length audio)%nat ->
  firstn wn (skipn (k * wn) audio) <> [].
Proof.
  intros Hw Hb E. apply (f_equal (@length R)) in E.
  rewrite length_firstn, length_skipn in E. simpl in E. lia.
Qed.

(** One turn of the loop on a window with samples. *)
Lemma window_turn (window : list R) (rms_values : list npfloat) self :
  window <> [] ->
  bind (calculate_rms window)
       (fun rms =>
          if np.gt0 rms then ret (rms_values ++ [np.scale 20 (np.log10 rms)])
          else ret rms_values) self
  = (Ok (rms_values ++ map Fin (levels [window])), self).
Proof.
  intros Hne. unfold bind. rewrite calculate_rms_nonempty by assumption.
  unfold levels, window_db, np.gt0.
  destruct (Rlt_dec 0 (sqrt (mean_square window))) as [Hpos | Hn].
  - unfold np.log10.
    destruct (Rlt_dec (sqrt (mean_square window)) 0); [lra |].
    destruct (Req_dec_T (sqrt (mean_square window)) 0); [lra | reflexivity].
  - simpl. rewrite app_nil_r. reflexivity.
Qed.

Lemma levels_app ws1 ws2 : levels (ws1 ++ ws2) = levels ws1 ++ levels ws2.
Proof.
  induction ws1 as [| w ws1 IH]; simpl; [reflexivity |].
  destruct (window_db w); simpl; now rewrite IH.
Qed.

Lemma levels_length ws : (length (levels ws) <= length ws)%nat.
Proof.
  induction ws as [| w ws IH]; simpl; [lia |].
  destruct (window_db w); simpl; lia.
Qed.

(** The loop over the windows at the given numbers. *)
Lemma windows_loop (audio : list R) (wn : nat) self :
  (0 < wn)%nat ->
  forall (ks : list nat) (rms_values : list npfloat),
    (forall k, In k ks -> (k * wn + wn <= length audio)%nat) ->
    for_each (map (fun k => (Z.of_nat k * Z.of_nat wn)%Z) ks)
      (fun i rms_values =>
         let window := py.slice audio i (i + Z.of_nat wn) in
         rms <- calculate_rms window ;;
         if np.gt0 rms then ret (rms_values ++ [np.scale 20 (np.log10 rms)])
         else ret rms_values)
      rms_values self
    = (Ok (rms_values
           ++ map Fin (levels (map (fun k => firstn wn (skipn (k * wn) audio)) ks))),
       self).
Proof.
  intros Hw. induction ks as [| k ks IH]; intros rms_values Hin; simpl for_each.
  - simpl. rewrite app_nil_r. reflexivity.
  - assert (k * wn + wn <= length audio)%nat as Hk by (apply Hin; now left).
    unfold bind at 1. cbv zeta. rewrite slice_window by assumption.
    rewrite window_turn by (now apply window_nonempty).
    rewrite IH by (intros k' Hk'; apply Hin; now right).
    rewrite <- app_assoc, <- map_app, <- levels_app. reflexivity.
Qed.

Lemma fold_max2_fin (l : list R) (x : R) :
  fold_left npf.max2 (map Fin l) (Fin x) = Fin (fold_right Rmax x l).
Proof.
  rewrite <- fold_symmetric by (intros; first [apply Rmax_assoc | apply Rmax_comm]).
  revert x. induction l as [| y l IH]; intros x; simpl; [reflexivity | apply IH].
Qed.

Lemma fold_min2_fin (l : list R) (x : R) :
  fold_left npf.min2 (map Fin l) (Fin x) = Fin (fold_right Rmin x l).
Proof.
  rewrite <- fold_symmetric by (intros; first [apply Rmin_assoc | apply Rmin_comm]).
  revert x. induction l as [| y l IH]; intros x; simpl; [reflexivity | apply IH].
Qed.

(** What [calculate_dynamic_range] returns for a window size above zero:
    the spread of the levels of the windows the loop reads. *)
Lemma calculate_dynamic_range_run audio self :
  let w := py.int (0.1 * IZR (sample_rate self)) in
  (0 < w)%Z ->
  calculate_dynamic_range audio self
  = (Ok (Fin (spread (levels (windows_read (Z.to_nat w) audio)))), self).
Proof.
  intros w Hw. unfold calculate_dynamic_range.
  unfold bind at 1. unfold get_sample_rate at 1. fold w.
  set (wn := Z.to_nat w).
  assert (0 < wn)%nat as Hwn by lia.
  assert (w = Z.of_nat wn) as Ew by lia.
  rewrite range_windows by assumption.
  unfold bind at 1. unfold lift at 1.
  unfold py.len at 1. rewrite Ew, windows_count by assumption.
  unfold bind at 1.
  rewrite (windows_loop audio wn self Hwn).
  2:{ intros k Hk. apply in_seq in Hk.
      pose proof (window_in_range (length audio) wn k Hwn ltac:(lia)). lia. }
  rewrite app_nil_l. fold (windows_read wn audio).
  destruct (levels (windows_read wn audio)) as [| x [| y l]]; try reflexivity.
  unfold py.len. rewrite length_map.
  destruct (Z.ltb_spec (Z.of_nat (length (x :: y :: l))) 2) as [Hlt | _];
    [simpl in Hlt; lia |].
  assert (npf.max (map Fin (x :: y :: l)) = Ok (Fin (fold_right Rmax x (y :: l))))
    as Emax.
  { transitivity (Ok (fold_left npf.max2 (map Fin (y :: l)) (Fin x)));
      [reflexivity | now rewrite fold_max2_fin]. }
  assert (npf.min (map Fin (x :: y :: l)) = Ok (Fin (fold_right Rmin x (y :: l))))
    as Emin.
  { transitivity (Ok (fold_left npf.min2 (map Fin (y :: l)) (Fin x)));
      [reflexivity | now rewrite fold_min2_fin]. }
  unfold bind, lift. rewrite Emax, Emin. reflexivity.
Qed.

Lemma windows_read_short (wn : nat) (audio : list R) :
  (0 < wn)%nat -> (length audio <= 2 * wn)%nat ->
  (length (windows_read wn audio) <= 1)%nat.
Proof.
  intros Hw Hlen. unfold windows_read. rewrite length_map, length_seq.
  assert ((length audio - 1) / wn < 2)%nat; [| lia].
  apply Nat.Div0.div_lt_upper_bound. lia.
Qed.

Lemma spread_short (dbs : list R) : (length dbs <= 1)%nat -> spread dbs = 0.
Proof. destruct dbs as [| x [| y l]]; simpl; intros H; try reflexivity; lia. Qed.

Lemma dynamic_range_short audio self :
  let w := py.int (0.1 * IZR (sample_rate self)) in
  (0 < w)%Z -> (py.len audio <= 2 * w)%Z ->
  calculate_dynamic_range audio self = (Ok (Fin 0), self).
Proof.
  intros w Hw Hlen. rewrite calculate_dynamic_range_run by assumption. fold w.
  rewrite spread_short; [reflexivity |].
  eapply Nat.le_trans; [apply levels_length |].
  apply windows_read_short; unfold py.len in Hlen; lia.
Qed.

(** C9: a buffer of at most twice the window size gives a dynamic range of
    exactly 0, because the loop reads fewer than two windows; at the sample
    rate 44100 of the analyzer these are the buffers of at most 8820
    samples. *)
Theorem dynamic_range_of_short_buffer audio self :
  let w := py.int (0.1 * IZR (sample_rate self)) in
  ((0 < w)%Z -> (py.len audio <= 2 * w)%Z ->
   calculate_dynamic_range audio self = (Ok (Fin 0), self))
  /\ ((py.len audio <= 8820)%Z ->
      calculate_dynamic_range audio new_analyzer = (Ok (Fin 0), new_analyzer)).
Proof.
  intros w. split.
  - apply dynamic_range_short.
  - intros Hlen. apply dynamic_range_short; rewrite window_size_default; lia.
Qed.

Lemma dynamic_range_of_short_buffer_witness :
  calculate_dynamic_range [1; -1; 1] new_analyzer = (Ok (Fin 0), new_analyzer).
Proof.
  destruct (dynamic_range_of_short_buffer [1; -1; 1] new_analyzer) as [_ H].
  apply H. vm_compute. discriminate.
Defined.

Lemma windows_read_full (wn : nat) (audio : list R) :
  (0 < wn)%nat -> (length audio mod wn <> 0)%nat ->
  windows_read wn audio = full_windows wn audio.
Proof.
  intros Hw Hmod. unfold windows_read, full_windows. do 2 f_equal.
  symmetry. apply (Nat.div_unique _ _ _ (length audio mod wn - 1)).
  - pose proof (Nat.mod_upper_bound (length audio) wn). lia.
  - pose proof (Nat.div_mod_eq (length audio) wn). lia.
Qed.

Lemma sum_sq_repeat (a : R) (n : nat) :
  fold_right (fun x s => x * x + s) 0 (repeat a n) = INR n * (a * a).
Proof.
  induction n as [| n IH]; [simpl; lra |].
  rewrite S_INR. simpl repeat. simpl fold_right. rewrite IH. lra.
Qed.

Lemma mean_square_repeat (a : R) (n : nat) :
  (0 < n)%nat -> mean_square (repeat a n) = a * a.
Proof.
  intros Hn. unfold mean_square. rewrite sum_sq_repeat, repeat_length.
  assert (0 < INR n) by (now apply lt_0_INR). field. lra.
Qed.

Lemma window_db_repeat (a : R) (n : nat) :
  (0 < n)%nat -> 0 < a -> window_db (repeat a n) = Some (20 * np.Rlog10 a).
Proof.
  intros Hn Ha. unfold window_db.
  rewrite mean_square_repeat by assumption. rewrite sqrt_square by lra.
  destruct (Rlt_dec 0 a); [reflexivity | contradiction].
Qed.

Lemma full_windows_two (a b : R) (n : nat) :
  (0 < n)%nat ->
  full_windows n (repeat a n ++ repeat b n) = [repeat a n; repeat b n].
Proof.
  intros Hn. unfold full_windows.
  rewrite length_app, !repeat_length.
  replace ((n + n) / n)%nat with 2%nat
    by (apply (Nat.div_unique _ _ _ 0%nat); lia).
  simpl seq. simpl map. rewrite Nat.add_0_r. f_equal; [| f_equal].
  - rewrite firstn_app, repeat_length, Nat.sub_diag. simpl firstn at 2.
    rewrite app_nil_r. apply firstn_all2. rewrite repeat_length. lia.
  - rewrite skipn_app, repeat_length, Nat.sub_diag. simpl skipn at 2.
    rewrite skipn_all2 by (rewrite repeat_length; lia). simpl app.
    apply firstn_all2. rewrite repeat_length. lia.
Qed.

Lemma Rlog10_1 : np.Rlog10 1 = 0.
Proof. unfold np.Rlog10. rewrite ln_1. lra. Qed.

Lemma Rlog10_half_neg : np.Rlog10 (1 / 2) < 0.
Proof.
  unfold np.Rlog10.
  assert (ln (1 / 2) < 0) by (rewrite <- ln_1; apply ln_increasing; lra).
  pose proof ln_10_pos as H10. pose proof (Rinv_0_lt_compat _ H10).
  unfold Rdiv at 1. nra.
Qed.

Lemma dynamic_range_spec_two (n : nat) :
  (0 < n)%nat ->
  dynamic_range_spec n (repeat 1 n ++ repeat (1 / 2) n)
  = - (20 * np.Rlog10 (1 / 2)).
Proof.
  intros Hn. unfold dynamic_range_spec. rewrite full_windows_two by assumption.
  unfold levels. rewrite !window_db_repeat by (assumption || lra).
  unfold spread. simpl fold_right. rewrite Rlog10_1, Rmult_0_r.
  pose proof Rlog10_half_neg.
  rewrite Rmax_right by lra. rewrite Rmin_left by lra. lra.
Qed.

Lemma two_window_buffer_length : py.len two_window_buffer = 8820%Z.
Proof.
  unfold py.len, two_window_buffer. rewrite length_app, !repeat_length.
  unfold default_window. lia.
Qed.

(** C2 at the analyzer's sample rate, where the window has
    [int(0.1 * 44100) = 4410] samples.  The method is the spread of the
    levels of the windows the loop reads; these are all full windows unless
    the length of the buffer is a multiple of the window size.  The buffer
    of 4410 samples of 1.0 followed by 4410 samples of 0.5 has two full
    windows, whose levels differ by [-20 * log10(0.5)] dB, about 6.02; the
    loop reads the first of them only, and the method returns 0. *)
Theorem dynamic_range_drops_last_full_window :
  (forall audio,
      calculate_dynamic_range audio new_analyzer
      = (Ok (Fin (spread (levels (windows_read default_window audio)))),
         new_analyzer))
  /\ (forall audio,
        (length audio mod default_window <> 0)%nat ->
        calculate_dynamic_range audio new_analyzer
        = (Ok (Fin (dynamic_range_spec default_window audio)), new_analyzer))
  /\ full_windows default_window two_window_buffer
     = [repeat 1 default_window; repeat (1 / 2) default_window]
  /\ dynamic_range_spec default_window two_window_buffer
     = - (20 * np.Rlog10 (1 / 2))
  /\ 0 < dynamic_range_spec default_window two_window_buffer
  /\ calculate_dynamic_range two_window_buffer new_analyzer
     = (Ok (Fin 0), new_analyzer).
Proof.
  assert (0 < default_window)%nat as Hw by (unfold default_window; lia).
  assert (forall audio,
             calculate_dynamic_range audio new_analyzer
             = (Ok (Fin (spread (levels (windows_read default_window audio)))),
                new_analyzer)) as Hrun.
  { intros audio. rewrite calculate_dynamic_range_run;
      rewrite window_size_default; [reflexivity | lia]. }
  split; [exact Hrun |]. split.
  { intros audio Hmod. rewrite Hrun, windows_read_full by assumption. reflexivity. }
  split; [now apply full_windows_two |].
  split; [now apply dynamic_range_spec_two |].
  split.
  { unfold two_window_buffer. rewrite dynamic_range_spec_two by assumption.
    pose proof Rlog10_half_neg. lra. }
  apply dynamic_range_short; rewrite window_size_default;
    [lia | rewrite two_window_buffer_length; lia].
Qed.

(** ** The methods on small buffers *)

Example rms_of_alternating_ones :
  calculate_rms [1; -1] new_analyzer = (Ok (Fin 1), new_analyzer).
Proof.
  rewrite calculate_rms_nonempty by discriminate.
  replace (mean_square [1; -1]) with 1 by (unfold mean_square; simpl; lra).
  now rewrite sqrt_1.
Qed.

Example peak_level_of_full_scale :
  calculate_peak_level [1 / 2; -1] new_analyzer = (Ok (Fin 0), new_analyzer).
Proof.
  rewrite calculate_peak_level_nonempty. simpl np.max_from.
  replace (Rmax (Rabs (1 / 2)) (Rabs (-1))) with 1.
  - unfold np.log10.
    destruct (Rlt_dec 1 0); [lra |]. destruct (Req_dec_T 1 0); [lra |].
    simpl. rewrite Rlog10_1, Rmult_0_r. reflexivity.
  - rewrite (Rabs_right (1 / 2)) by lra. rewrite (Rabs_left (-1)) by lra.
    rewrite Rmax_right; lra.
Qed.

Example snr_of_equal_buffers :
  calculate_snr [1; 2] [2; 1] new_analyzer = (Ok (Fin 0), new_analyzer).
Proof.
  rewrite calculate_snr_value. unfold snr_spec, power, mean_square. simpl.
  unfold np.eq0.
  destruct (Req_dec_T ((2 * 2 + (1 * 1 + 0)) / (1 + 1)) 0) as [E | Hn]; [lra |].
  unfold np.div.
  destruct (Req_dec_T ((2 * 2 + (1 * 1 + 0)) / (1 + 1)) 0) as [E | _]; [lra |].
  replace ((1 * 1 + (2 * 2 + 0)) / (1 + 1) / ((2 * 2 + (1 * 1 + 0)) / (1 + 1)))
    with 1 by lra.
  unfold np.log10.
  destruct (Rlt_dec 1 0); [lra |]. destruct (Req_dec_T 1 0); [lra |].
  simpl. rewrite Rlog10_1, Rmult_0_r. reflexivity.
Qed.

Lemma bin_power_two_samples :
  bin_power [1; 1] 0 = 4 /\ bin_power [1; 1] 1 = 0.
Proof.
  unfold bin_power. simpl.
  replace (2 * PI * 0 * 0 / (1 + 1)) with 0 by lra.
  replace (2 * PI * 0 * 1 / (1 + 1)) with 0 by lra.
  replace (2 * PI * 1 * 0 / (1 + 1)) with 0 by lra.
  replace (2 * PI * 1 * 1 / (1 + 1)) with PI by lra.
  rewrite cos_0, sin_0, cos_PI, sin_PI. split; lra.
Qed.

(** Two equal samples are a pure DC signal: bin 0 (0 Hz) is nearer to
    440 Hz than bin 1 (-22050 Hz), it holds all the power, and the THD+N
    is 0 percent. *)
Example thd_n_of_two_equal_samples :
  calculate_thd_n [1; 1] 440 new_analyzer = (Ok (Fin 0), new_analyzer).
Proof.
  destruct (calculate_thd_n_run [1; 1] 440 new_analyzer ltac:(discriminate)
              new_analyzer_rate_nonzero)
    as [freqs [k [Efreq [_ [Ek [_ [_ Erun]]]]]]].
  rewrite Erun. clear Erun.
  assert (k = 0%nat) as ->.
  { rewrite new_analyzer_rate in Efreq. unfold fft.fftfreq in Efreq.
    destruct (Req_dec_T _ 0) as [E | _] in Efreq; [discriminate |].
    injection Efreq as <-. unfold nearest_bin in Ek. simpl in Ek.
    destruct (Rlt_dec _ _) as [Hlt | _] in Ek; [| congruence].
    exfalso. revert Hlt.
    replace (0 * (1 / ((1 + 1) * (1 / 44100))) - 440) with (-440) by (field; lra).
    replace (-1 * (1 / ((1 + 1) * (1 / 44100))) - 440) with (-22490) by (field; lra).
    rewrite !Rabs_left by lra. lra. }
  destruct bin_power_two_samples as [E0 E1].
  unfold thd_n_formula, total_power. simpl. rewrite E0, E1.
  destruct (Req_dec_T 4 0); [lra |].
  replace ((4 + (0 + 0) - 4) / 4) with 0 by lra.
  rewrite sqrt_0, Rmult_0_l. reflexivity.
Qed.

(** * Further properties of the metric methods *)

(** ** Signal-to-noise ratio: edge cases *)

Lemma power_nonempty audio : audio <> [] -> power audio = Fin (mean_square audio).
Proof. destruct audio; [congruence | reflexivity]. Qed.

Lemma snr_finite_ratio signal_audio noise_audio :
  signal_audio <> [] -> noise_audio <> [] ->
  0 < mean_square signal_audio -> 0 < mean_square noise_audio ->
  snr_spec signal_audio noise_audio
  = Fin (10 * np.Rlog10 (mean_square signal_audio / mean_square noise_audio)).
Proof.
  intros Hs Hn Hps Hpn. unfold snr_spec.
  rewrite !power_nonempty by assumption. unfold np.eq0, np.div.
  destruct (Req_dec_T (mean_square noise_audio) 0); [lra |].
  assert (0 < mean_square signal_audio / mean_square noise_audio)
    by (apply Rdiv_lt_0_compat; assumption).
  unfold np.log10.
  destruct (Rlt_dec _ 0); [lra |]. destruct (Req_dec_T _ 0); [lra |]. reflexivity.
Qed.

Lemma in_range_alternating : in_range [1; -1].
Proof.
  constructor; [right; unfold sample_limit; rewrite Rabs_R1; lra |].
  constructor; [| constructor].
  right. unfold sample_limit. rewrite Rabs_left by lra. lra.
Qed.

(** X4: the signal-to-noise ratio of a buffer with samples in range
    against itself is 0 dB, unless the buffer is silent. *)
Theorem snr_of_buffer_against_itself audio self :
  audio <> [] -> in_range audio -> ~ silent audio ->
  fst (calculate_snr audio audio self) = Ok (Fin 0).
Proof.
  intros Hne _ Hns. rewrite calculate_snr_value. simpl fst.
  pose proof (mean_square_nonneg audio Hne) as H0.
  assert (mean_square audio <> 0) as Hnz
    by (intros E; apply Hns; now apply mean_square_zero).
  rewrite snr_finite_ratio by (assumption || lra).
  replace (mean_square audio / mean_square audio) with 1 by (field; assumption).
  rewrite Rlog10_1, Rmult_0_r. reflexivity.
Qed.

Lemma snr_of_buffer_against_itself_witness :
  fst (calculate_snr [1; -1] [1; -1] new_analyzer) = Ok (Fin 0).
Proof.
  apply snr_of_buffer_against_itself;
    [discriminate | exact in_range_alternating |].
  intros H. inversion H as [| ? ? H1 _]. lra.
Defined.

(** X6: the edge cases of [calculate_snr].  A silent noise buffer with
    samples gives plus infinity whatever the signal is, also for a silent
    or an empty signal; a silent signal against noise in range that is not
    silent gives minus infinity; a noise buffer without samples gives NaN.
    No case raises. *)
Theorem snr_edge_cases signal_audio noise_audio self :
  (noise_audio <> [] -> silent noise_audio ->
   fst (calculate_snr signal_audio noise_audio self) = Ok PosInf)
  /\ (signal_audio <> [] -> silent signal_audio ->
      in_range noise_audio -> ~ silent noise_audio -> noise_audio <> [] ->
      fst (calculate_snr signal_audio noise_audio self) = Ok NegInf)
  /\ (noise_audio = [] ->
      fst (calculate_snr signal_audio noise_audio self) = Ok NaN).
Proof.
  rewrite calculate_snr_value. simpl fst. unfold snr_spec.
  split; [| split].
  - intros Hne Hs. apply (mean_square_zero _ Hne) in Hs.
    rewrite (power_nonempty noise_audio) by assumption. unfold np.eq0. rewrite Hs.
    destruct (Req_dec_T 0 0); [reflexivity | congruence].
  - intros Hs Hss _ Hns Hn. apply (mean_square_zero _ Hs) in Hss.
    assert (mean_square noise_audio <> 0) as Hnz
      by (intros E; apply Hns; now apply mean_square_zero).
    rewrite !power_nonempty by assumption. unfold np.eq0, np.div. rewrite Hss.
    destruct (Req_dec_T (mean_square noise_audio) 0); [contradiction |].
    unfold Rdiv. rewrite Rmult_0_l. unfold np.log10.
    destruct (Rlt_dec 0 0); [lra |]. destruct (Req_dec_T 0 0); [reflexivity | lra].
  - intros ->. simpl. destruct (power signal_audio); reflexivity.
Qed.

Lemma snr_edge_cases_witness :
  fst (calculate_snr [] [0; 0] new_analyzer) = Ok PosInf
  /\ fst (calculate_snr [0; 0] [1; -1] new_analyzer) = Ok NegInf
  /\ fst (calculate_snr [1] [] new_analyzer) = Ok NaN.
Proof.
  split; [| split].
  - apply (snr_edge_cases [] [0; 0] new_analyzer); [discriminate |].
    repeat constructor.
  - apply (snr_edge_cases [0; 0] [1; -1] new_analyzer);
      [discriminate | repeat constructor | exact in_range_alternating
      | | discriminate].
    intros H. inversion H as [| ? ? H1 _]. lra.
  - apply (snr_edge_cases [1] [] new_analyzer). reflexivity.
Defined.

(** ** Correlation: the tail of the longer buffer *)

(** X7: the samples of the longer buffer beyond the length of the shorter
    one have no part in the correlation: appending samples to a buffer
    that is already at least as long as the other changes nothing. *)
Theorem correlation_ignores_tail stat audio1 audio2 extra self :
  (length audio1 <= length audio2)%nat ->
  calculate_correlation stat audio1 (audio2 ++ extra) self
  = calculate_correlation stat audio1 audio2 self
  /\ calculate_correlation stat (audio2 ++ extra) audio1 self
     = calculate_correlation stat audio2 audio1 self.
Proof.
  intros Hlen. rewrite !calculate_correlation_run.
  rewrite !length_app.
  replace (Nat.min (length audio1) (length audio2 + length extra))
    with (length audio1) by lia.
  replace (Nat.min (length audio2 + length extra) (length audio1))
    with (length audio1) by lia.
  replace (Nat.min (length audio1) (length audio2)) with (length audio1) by lia.
  replace (Nat.min (length audio2) (length audio1)) with (length audio1) by lia.
  rewrite firstn_app.
  replace (length audio1 - length audio2)%nat with 0%nat by lia.
  simpl firstn at 2. rewrite app_nil_r. split; reflexivity.
Qed.

Lemma correlation_ignores_tail_witness :
  let stat := fun x y : list R => (Fin (np.sum x), Fin (np.sum y)) in
  calculate_correlation stat [1; 2] ([3; 4] ++ [5; 6]) new_analyzer
  = calculate_correlation stat [1; 2] [3; 4] new_analyzer.
Proof.
  intros stat.
  apply (correlation_ignores_tail stat [1; 2] [3; 4] [5; 6] new_analyzer).
  simpl. lia.
Defined.

(** ** THD+N: errors and values *)





(** ** Dynamic range: outcomes *)

Lemma fold_max_ge x l : x <= fold_right Rmax x l.
Proof.
  induction l as [| y l IH]; simpl; [lra |].
  eapply Rle_trans; [exact IH | apply Rmax_r].
Qed.

Lemma fold_min_le x l : fold_right Rmin x l <= x.
Proof.
  induction l as [| y l IH]; simpl; [lra |].
  eapply Rle_trans; [apply Rmin_r | exact IH].
Qed.

Lemma spread_nonneg dbs : 0 <= spread dbs.
Proof.
  destruct dbs as [| x [| y l]]; simpl; try lra.
  pose proof (fold_max_ge x l). pose proof (fold_min_le x l).
  pose proof (Rmax_r y (fold_right Rmax x l)).
  pose proof (Rmin_r y (fold_right Rmin x l)). lra.
Qed.

Lemma dynamic_range_zero_window audio self :
  py.int (0.1 * IZR (sample_rate self)) = 0%Z ->
  calculate_dynamic_range audio self = (Raise (ValueError RangeStepZero), self).
Proof.
  intros Hw. unfold calculate_dynamic_range, bind, get_sample_rate, lift.
  rewrite Hw. reflexivity.
Qed.

Lemma dynamic_range_negative_window audio self :
  (py.int (0.1 * IZR (sample_rate self)) < 0)%Z ->
  calculate_dynamic_range audio self = (Ok (Fin 0), self).
Proof.
  intros Hw. unfold calculate_dynamic_range, bind, get_sample_rate, lift.
  set (w := py.int (0.1 * IZR (sample_rate self))) in *.
  unfold py.range.
  destruct (Z.eqb_spec w 0) as [E | _]; [lia |].
  destruct (Z.ltb_spec 0 w) as [Hpos | _]; [lia |].
  replace (Z.to_nat ((0 - (py.len audio - w) - w - 1) / - w)) with 0%nat.
  - reflexivity.
  - assert ((0 - (py.len audio - w) - w - 1) / - w < 0)%Z; [| lia].
    apply Z.div_lt_upper_bound; unfold py.len; lia.
Qed.

Lemma in_range_repeat x n :
  / sample_limit <= Rabs x <= sample_limit -> in_range (repeat x n).
Proof.
  intros Hx. induction n as [| n IH]; simpl; constructor; [now right | exact IH].
Qed.

Lemma in_range_app a b : in_range a -> in_range b -> in_range (a ++ b).
Proof. intros Ha Hb. apply Forall_app. split; assumption. Qed.

Lemma in_range_two_windows : in_range two_window_buffer.
Proof.
  unfold two_window_buffer. apply in_range_app; apply in_range_repeat;
    unfold sample_limit.
  - rewrite Rabs_R1. lra.
  - rewrite Rabs_right by lra. lra.
Qed.

(** X10: what [calculate_dynamic_range] does for each window size
    [w = int(0.1 * sample_rate)] at a usual sample rate.  With [w > 0], as
    at the analyzer's rate of 44100, it never raises and returns a real
    number that is not negative, for every buffer with samples in range;
    with [w = 0] (a sample rate from 1 to 9) the loop's [range] raises
    [ValueError]; with [w < 0] the loop has no turn and the result is 0. *)
Theorem dynamic_range_outcomes audio self :
  usual_rate self ->
  let w := py.int (0.1 * IZR (sample_rate self)) in
  ((0 < w)%Z -> in_range audio ->
   exists v, calculate_dynamic_range audio self = (Ok (Fin v), self) /\ 0 <= v)
  /\ (w = 0%Z ->
      calculate_dynamic_range audio self
      = (Raise (ValueError RangeStepZero), self))
  /\ ((w < 0)%Z -> calculate_dynamic_range audio self = (Ok (Fin 0), self)).
Proof.
  intros _ w. split; [| split].
  - intros Hw _. rewrite calculate_dynamic_range_run by assumption.
    eexists. split; [reflexivity | apply spread_nonneg].
  - apply dynamic_range_zero_window.
  - apply dynamic_range_negative_window.
Qed.

Lemma dynamic_range_outcomes_witness :
  exists v, calculate_dynamic_range two_window_buffer new_analyzer
            = (Ok (Fin v), new_analyzer) /\ 0 <= v.
Proof.
  apply (dynamic_range_outcomes two_window_buffer new_analyzer
           usual_rate_new_analyzer).
  - rewrite window_size_default. reflexivity.
  - exact in_range_two_windows.
Defined.

(** * The tester *)

(** ** Calls of analyzer methods from the tester *)

Lemma on_analyzer_read_only env A (m : method A) self w :
  read_only m ->
  on_analyzer env m (self, w)
  = (match fst (m (analyzer self)) with
     | Ok a => Return a
     | Raise e => Throw (MetricError e)
     end, (self, w)).
Proof.
  intros Hro. unfold on_analyzer. simpl fst. simpl snd.
  specialize (Hro (analyzer self)).
  destruct (m (analyzer self)) as [r an]. simpl in Hro. subst an.
  destruct self as [path an]. simpl. destruct r; reflexivity.
Qed.

Lemma on_analyzer_get env self w :
  on_analyzer env get_sample_rate (self, w)
  = (Return (sample_rate (analyzer self)), (self, w)).
Proof. now rewrite on_analyzer_read_only by apply read_only_get. Qed.

(** ** The test tone *)

Lemma np_linspace_run stop num :
  (0 <= num)%Z ->
  np_linspace stop num
  = Return (map (fun i => INR i * (stop / IZR (num - 1))) (seq 0 (Z.to_nat num))).
Proof.
  intros Hn. unfold np_linspace.
  destruct (Z.ltb_spec num 0) as [Hneg | _]; [lia |].
  destruct (Z.eqb_spec num 1) as [-> | _]; [| reflexivity].
  simpl. unfold Rdiv. rewrite Rinv_0. f_equal. f_equal. lra.
Qed.

Lemma np_iadd_same_length a b :
  length b = length a ->
  np_iadd a b = Return (map (fun xy => fst xy + snd xy) (combine a b)).
Proof. intros H. unfold np_iadd. now rewrite H, Nat.eqb_refl. Qed.

Lemma nth_combine_sum (a b : list R) i :
  length b = length a -> (i < length a)%nat ->
  nth i (map (fun xy => fst xy + snd xy) (combine a b)) 0 = nth i a 0 + nth i b 0.
Proof.
  intros Hlen Hi.
  rewrite (nth_map_lt _ _ (fun xy => fst xy + snd xy) _ i (0, 0) 0)
    by (rewrite length_combine; lia).
  rewrite combine_nth by (symmetry; exact Hlen). reflexivity.
Qed.

(** X12: with the audio libraries, at a usual sample rate, for a frequency
    in band, and with a product [duration * sample_rate] that is a whole
    number [n] from 0 to 2^53 (so that binary64 holds it exactly),
    [create_test_audio] raises
    nothing and hands [n] samples to [sf.write]; sample [i] is
    [0.5 * sin(2 pi f t_i)] plus 0.01 times the [i]-th random number, at
    the time [t_i = i * duration / (n - 1)].  The method returns [True]
    exactly when [sf.write] raised nothing, and leaves the tester as it
    was. *)
Theorem create_test_audio_writes_tone env output_file duration frequency self w :
  AUDIO_LIBS_AVAILABLE env = true ->
  randn_returns_n env ->
  usual_rate (analyzer self) -> in_band frequency ->
  let sr := sample_rate (analyzer self) in
  let n := py.int (duration * IZR sr) in
  IZR n = duration * IZR sr ->
  (0 <= n <= 9007199254740992)%Z ->
  let draw := fst (randn env (Z.to_nat n) w) in
  let w1 := snd (randn env (Z.to_nat n) w) in
  exists audio,
    length audio = Z.to_nat n
    /\ (forall i, (i < Z.to_nat n)%nat ->
          nth i audio 0
          = 0.5 * sin (2 * PI * frequency * (INR i * (duration / IZR (n - 1))))
            + 0.01 * nth i draw 0)
    /\ create_test_audio env output_file duration frequency (self, w)
       = match sf_write env output_file audio sr w1 with
         | (None, w2) => (Return true, (self, w2))
         | (Some e, w2) => (Return false, (self, print env (TestAudioFailed e) w2))
         end.
Proof.
  intros Hlibs Hrandn _ _ sr n _ [Hn _] draw w1.
  set (t := map (fun i => INR i * (duration / IZR (n - 1))) (seq 0 (Z.to_nat n))).
  set (tone := map (fun ti => 0.5 * sin (2 * PI * frequency * ti)) t).
  set (noise := map (fun z => 0.01 * z) draw).
  assert (length tone = Z.to_nat n) as Htone
    by (unfold tone, t; now rewrite !length_map, length_seq).
  assert (length noise = length tone) as Hnoise.
  { unfold noise, draw. rewrite length_map, Htone. apply Hrandn. }
  assert (forall i, (i < Z.to_nat n)%nat ->
            nth i tone 0
            = 0.5 * sin (2 * PI * frequency * (INR i * (duration / IZR (n - 1)))))
    as Htone_i.
  { intros i Hi. unfold tone, t. rewrite map_map.
    rewrite (nth_map_lt _ _ _ _ i 0%nat 0) by (now rewrite length_seq).
    now rewrite seq_nth by assumption. }
  assert (forall i, (i < Z.to_nat n)%nat -> nth i noise 0 = 0.01 * nth i draw 0)
    as Hnoise_i.
  { intros i Hi. unfold noise.
    apply (nth_map_lt _ _ (fun z => 0.01 * z) draw i 0 0).
    unfold draw. rewrite Hrandn. assumption. }
  exists (map (fun xy => fst xy + snd xy) (combine tone noise)).
  split; [| split].
  - rewrite length_map, length_combine. lia.
  - intros i Hi. rewrite nth_combine_sum by (assumption || lia).
    now rewrite Htone_i, Hnoise_i.
  - unfold create_test_audio. rewrite Hlibs.
    change (negb true) with false. cbv iota.
    unfold abind at 1. rewrite on_analyzer_get. fold sr. fold n.
    unfold abind at 1. unfold alift at 1. rewrite np_linspace_run by assumption.
    fold t. fold tone.
    unfold abind at 1. unfold outside at 1. simpl snd. simpl fst.
    rewrite Htone.
    destruct (randn env (Z.to_nat n) w) as [draw' w1'] eqn:Er.
    subst draw w1. simpl fst in *. simpl snd in *. fold noise.
    unfold abind at 1. unfold alift at 1.
    rewrite np_iadd_same_length by assumption.
    unfold abind at 1. rewrite on_analyzer_get. fold sr.
    unfold abind at 1. unfold outside at 1. simpl snd. simpl fst.
    destruct (sf_write env output_file _ sr w1') as [[e |] w2]; reflexivity.
Qed.

Lemma py_int_IZR z : py.int (IZR z) = z.
Proof.
  unfold py.int. destruct (Rle_dec 0 (IZR z)) as [_ | _].
  - symmetry. apply Int_part_spec. lra.
  - rewrite <- opp_IZR.
    assert (Int_part (IZR (- z)) = (- z)%Z) as ->; [| lia].
    symmetry. apply Int_part_spec. lra.
Qed.

Lemma example_randn_returns_n : randn_returns_n example_environment.
Proof. intros n w. simpl. apply repeat_length. Qed.

Lemma create_test_audio_writes_tone_witness :
  exists audio : list R,
    length audio = Z.to_nat 44100
    /\ create_test_audio example_environment "in.wav"%str 1 440
         (new_tester "world4utau"%str, tt)
       = (Return true, (new_tester "world4utau"%str, tt)).
Proof.
  assert (py.int (1 * IZR 44100) = 44100%Z) as E
    by (rewrite Rmult_1_l; apply py_int_IZR).
  pose proof (create_test_audio_writes_tone example_environment "in.wav"%str 1 440
                (new_tester "world4utau"%str) tt eq_refl example_randn_returns_n
                usual_rate_new_analyzer in_band_440)
    as H.
  cbv zeta in H.
  change (sample_rate (analyzer (new_tester "world4utau"%str))) with 44100%Z in H.
  rewrite E in H.
  destruct (H ltac:(lra) ltac:(lia)) as [audio [Hlen [_ Hrun]]].
  exists audio. split; [exact Hlen | exact Hrun].
Defined.

(** X13: what [create_test_audio] does when it writes nothing.  With the
    libraries and a negative sample count [int(duration * sample_rate)],
    [np.linspace] raises [ValueError] outside the [try], so the method
    raises instead of returning [False]; without the libraries it returns
    [False].  In both cases no random number is drawn, nothing is written
    or printed, and the tester is left as it was. *)
Theorem create_test_audio_without_write env output_file duration frequency self w :
  (AUDIO_LIBS_AVAILABLE env = true ->
   (py.int (duration * IZR (sample_rate (analyzer self))) < 0)%Z ->
   create_test_audio env output_file duration frequency (self, w)
   = (Throw LinspaceNegative, (self, w)))
  /\ (AUDIO_LIBS_AVAILABLE env = false ->
      create_test_audio env output_file duration frequency (self, w)
      = (Return false, (self, w))).
Proof.
  split.
  - intros Hlibs Hneg. unfold create_test_audio. rewrite Hlibs.
    change (negb true) with false. cbv iota.
    unfold abind at 1. rewrite on_analyzer_get.
    unfold abind at 1. unfold alift at 1. unfold np_linspace.
    destruct (Z.ltb_spec (py.int (duration * IZR (sample_rate (analyzer self)))) 0);
      [reflexivity | lia].
  - intros Hlibs. unfold create_test_audio. rewrite Hlibs. reflexivity.
Qed.

Lemma create_test_audio_without_write_witness :
  create_test_audio example_environment "in.wav"%str (-1) 440
    (new_tester "world4utau"%str, tt)
  = (Throw LinspaceNegative, (new_tester "world4utau"%str, tt)).
Proof.
  apply (create_test_audio_without_write example_environment "in.wav"%str (-1) 440
           (new_tester "world4utau"%str) tt); [reflexivity |].
  simpl. replace (-1 * 44100) with (IZR (-44100)) by lra.
  rewrite py_int_IZR. lia.
Defined.

(** X14: the time axis of the test tone.  When [duration * sample_rate] is
    a whole number [n >= 2] (any whole number of seconds), [np.linspace]
    puts the first sample at time 0 and the last at time [duration] itself,
    so consecutive samples are [duration / (n - 1)] apart: more than the
    sample period [1 / sample_rate] the file is written with. *)
Theorem test_tone_time_step duration sr :
  (0 < sr)%Z ->
  let n := py.int (duration * IZR sr) in
  (2 <= n)%Z ->
  IZR n = duration * IZR sr ->
  exists t,
    np_linspace duration n = Return t
    /\ length t = Z.to_nat n
    /\ nth 0 t 0 = 0
    /\ nth (Z.to_nat n - 1) t 0 = duration
    /\ (forall i, (i + 1 < Z.to_nat n)%nat ->
          nth (i + 1) t 0 - nth i t 0 = duration / IZR (n - 1))
    /\ 1 / IZR sr < duration / IZR (n - 1).
Proof.
  intros Hsr n Hn Hexact.
  rewrite np_linspace_run by lia.
  eexists. split; [reflexivity |].
  assert (0 < IZR sr) as Hsr' by (now apply IZR_lt).
  assert (1 <= IZR (n - 1)) as Hn1 by (apply IZR_le; lia).
  assert (IZR (n - 1) = IZR n - 1) as En1 by (rewrite minus_IZR; reflexivity).
  assert (forall i, (i < Z.to_nat n)%nat ->
            nth i (map (fun i => INR i * (duration / IZR (n - 1)))
                       (seq 0 (Z.to_nat n))) 0
            = INR i * (duration / IZR (n - 1))) as Hnth.
  { intros i Hi.
    rewrite (nth_map_lt _ _ _ _ i 0%nat 0) by (now rewrite length_seq).
    now rewrite seq_nth by assumption. }
  split; [now rewrite length_map, length_seq |].
  split; [rewrite Hnth by lia; simpl; lra |].
  split.
  { rewrite Hnth by lia.
    replace (INR (Z.to_nat n - 1)) with (IZR (n - 1)).
    - field. lra.
    - rewrite INR_IZR_INZ. f_equal. lia. }
  split.
  { intros i Hi. rewrite !Hnth by lia. rewrite plus_INR. simpl INR. lra. }
  assert (0 < duration) as Hd by nra.
  apply (Rmult_lt_reg_r (IZR sr * IZR (n - 1))); [nra |].
  replace (1 / IZR sr * (IZR sr * IZR (n - 1))) with (IZR (n - 1)) by (field; lra).
  replace (duration / IZR (n - 1) * (IZR sr * IZR (n - 1)))
    with (duration * IZR sr) by (field; lra).
  lra.
Qed.

Lemma test_tone_time_step_witness :
  exists t, np_linspace 3 132300 = Return t /\ nth (Z.to_nat 132300 - 1) t 0 = 3.
Proof.
  assert (py.int (3 * IZR 44100) = 132300%Z) as E.
  { replace (3 * IZR 44100) with (IZR 132300) by lra. apply py_int_IZR. }
  destruct (test_tone_time_step 3 44100 ltac:(lia)) as [t [Ht [_ [_ [Hlast _]]]]].
  - rewrite E. lia.
  - rewrite E. lra.
  - rewrite E in Ht, Hlast. exists t. split; assumption.
Defined.

(** ** Loading and analysing *)

Lemma on_analyzer_ok env A (m : method A) self w a :
  m (analyzer self) = (Ok a, analyzer self) ->
  on_analyzer env m (self, w) = (Return a, (self, w)).
Proof.
  intros H. unfold on_analyzer. simpl fst. simpl snd. rewrite H.
  destruct self; reflexivity.
Qed.

Lemma on_analyzer_raise env A (m : method A) self w e :
  m (analyzer self) = (Raise e, analyzer self) ->
  on_analyzer env m (self, w) = (Throw (MetricError e), (self, w)).
Proof.
  intros H. unfold on_analyzer. simpl fst. simpl snd. rewrite H.
  destruct self; reflexivity.
Qed.

Lemma load_audio_run env file_path self w :
  AUDIO_LIBS_AVAILABLE env = true ->
  let loaded := librosa_load env file_path (sample_rate (analyzer self)) w in
  load_audio env file_path (self, w)
  = (Return (match fst loaded with inl _ => None | inr a => Some a end),
     (self, after_load env file_path loaded)).
Proof.
  intros Hlibs loaded. unfold load_audio, after_load. rewrite Hlibs.
  change (negb true) with false. cbv iota.
  unfold abind at 1. rewrite on_analyzer_get.
  unfold abind at 1. unfold outside at 1. simpl fst. simpl snd. fold loaded.
  destruct loaded as [[e | [audio sr']] w1]; reflexivity.
Qed.

(** X15: how [analyze_quality] ends without a report.  Without the audio
    libraries it raises [ImportError] (from [load_audio]).  With them, both
    files are always loaded, the second also after the first has failed;
    when a load fails the method returns [None], computes no metric, and
    every failed load has been printed; the tester is left as it was. *)
Theorem analyze_quality_without_report env original_file processed_file self w :
  (AUDIO_LIBS_AVAILABLE env = false ->
   analyze_quality env original_file processed_file (self, w)
   = (Throw ImportError, (self, w)))
  /\ (AUDIO_LIBS_AVAILABLE env = true ->
      let sr := sample_rate (analyzer self) in
      let first := librosa_load env original_file sr w in
      let w1 := after_load env original_file first in
      let second := librosa_load env processed_file sr w1 in
      let w2 := after_load env processed_file second in
      (exists e, fst first = inl e) \/ (exists e, fst second = inl e) ->
      analyze_quality env original_file processed_file (self, w)
      = (Return None, (self, w2))).
Proof.
  split.
  - intros Hlibs. unfold analyze_quality, abind, load_audio. rewrite Hlibs.
    reflexivity.
  - intros Hlibs sr first w1 second w2 Hfail. unfold analyze_quality.
    unfold abind at 1. rewrite load_audio_run by assumption. fold sr first w1.
    unfold abind at 1. rewrite load_audio_run by assumption. fold sr second w2.
    destruct (fst first) as [e1 | [a1 s1]] eqn:E1;
      destruct (fst second) as [e2 | [a2 s2]] eqn:E2; try reflexivity.
    destruct Hfail as [[e He] | [e He]]; discriminate He.
Qed.

Lemma analyze_quality_without_report_witness :
  let env := {| world := unit; AUDIO_LIBS_AVAILABLE := true;
                randn := fun n w => (repeat 0 n, w);
                sf_write := fun _ _ _ w => (None, w);
                librosa_load := fun _ _ w => (inl "no such file"%str, w);
                print := fun _ w => w;
                env_spectrogram := fun _ _ _ => Ok ([], [], []);
                env_pearson_statistic := fun _ _ => (Fin 1, Fin 0) |} in
  analyze_quality env "a.wav"%str "b.wav"%str (new_tester "world4utau"%str, tt)
  = (Return None, (new_tester "world4utau"%str, tt)).
Proof.
  intros env.
  apply (analyze_quality_without_report env "a.wav"%str "b.wav"%str
           (new_tester "world4utau"%str) tt); [reflexivity |].
  left. exists "no such file"%str. reflexivity.
Defined.

(** X16: a file that loads as an array without samples aborts the analysis
    with the [ValueError] of [np.max] in [calculate_peak_level]; the method
    then returns no report and not [None] either.  (The RMS entries before
    it were computed as NaN without complaint.) *)
Theorem analyze_quality_of_empty_audio env original_file processed_file self w
    original processed sr1 sr2 :
  AUDIO_LIBS_AVAILABLE env = true ->
  let sr := sample_rate (analyzer self) in
  let first := librosa_load env original_file sr w in
  let second := librosa_load env processed_file sr (snd first) in
  fst first = inr (original, sr1) ->
  fst second = inr (processed, sr2) ->
  original = [] \/ processed = [] ->
  analyze_quality env original_file processed_file (self, w)
  = (Throw (MetricError (ValueError ZeroSizeReduction)), (self, snd second)).
Proof.
  intros Hlibs sr first second E1 E2 Hempty. unfold analyze_quality.
  unfold abind at 1. rewrite load_audio_run by assumption. fold sr first.
  unfold after_load at 1. rewrite E1.
  unfold abind at 1. rewrite load_audio_run by assumption. fold sr second.
  unfold after_load at 1. rewrite E2. cbv iota beta.
  set (an := analyzer self).
  unfold abind at 1.
  rewrite (on_analyzer_ok env _ _ self _ (np.sqrt (np.mean (np.square original))))
    by reflexivity.
  unfold abind at 1.
  rewrite (on_analyzer_ok env _ _ self _ (np.sqrt (np.mean (np.square processed))))
    by reflexivity.
  unfold abind at 1.
  destruct original as [| x original].
  - rewrite (on_analyzer_raise env _ _ self _ (ValueError ZeroSizeReduction))
      by reflexivity.
    reflexivity.
  - destruct Hempty as [Hx | ->]; [discriminate Hx |].
    rewrite (on_analyzer_ok env _ _ self _ _
               (calculate_peak_level_nonempty x original (analyzer self))).
    unfold abind at 1.
    rewrite (on_analyzer_raise env _ _ self _ (ValueError ZeroSizeReduction))
      by reflexivity.
    reflexivity.
Qed.

Lemma analyze_quality_of_empty_audio_witness :
  let env := {| world := unit; AUDIO_LIBS_AVAILABLE := true;
                randn := fun n w => (repeat 0 n, w);
                sf_write := fun _ _ _ w => (None, w);
                librosa_load := fun _ sr w => (inr ([], sr), w);
                print := fun _ w => w;
                env_spectrogram := fun _ _ _ => Ok ([], [], []);
                env_pearson_statistic := fun _ _ => (Fin 1, Fin 0) |} in
  analyze_quality env "a.wav"%str "b.wav"%str (new_tester "world4utau"%str, tt)
  = (Throw (MetricError (ValueError ZeroSizeReduction)),
     (new_tester "world4utau"%str, tt)).
Proof.
  intros env.
  apply (analyze_quality_of_empty_audio env "a.wav"%str "b.wav"%str
           (new_tester "world4utau"%str) tt [] [] 44100%Z 44100%Z);
    [reflexivity | reflexivity | reflexivity | now left].
Defined.

Lemma report_of_eleven v1 v2 v3 v4 v5 v6 v7 v8 v9 v10 v11 :
  dict_set
    (dict_set
       (dict_set
          (dict_set
             (dict_set
                (dict_set
                   (dict_set
                      (dict_set
                         (dict_set
                            (dict_set (dict_set [] keys.original_rms v1)
                               keys.processed_rms v2)
                            keys.original_peak v3)
                         keys.processed_peak v4)
                      keys.correlation v5)
                   keys.correlation_p_value v6)
                keys.original_thd_n v7)
             keys.processed_thd_n v8)
          keys.original_dynamic_range v9)
       keys.processed_dynamic_range v10)
    keys.frequency_response v11
  = [(keys.original_rms, v1); (keys.processed_rms, v2);
     (keys.original_peak, v3); (keys.processed_peak, v4);
     (keys.correlation, v5); (keys.correlation_p_value, v6);
     (keys.original_thd_n, v7); (keys.processed_thd_n, v8);
     (keys.original_dynamic_range, v9); (keys.processed_dynamic_range, v10);
     (keys.frequency_response, v11)].
Proof. reflexivity. Qed.

Lemma frequency_response_run spectrogram audio an f t Sxx :
  spectrogram audio (sample_rate an) 1024%Z = Ok (f, t, Sxx) ->
  calculate_frequency_response spectrogram audio an
  = (Ok (f, map np.mean Sxx), an).
Proof.
  intros H. unfold calculate_frequency_response, bind, get_sample_rate, lift.
  rewrite H. reflexivity.
Qed.

(** X17: when both files load with at least two samples each, the window
    size [int(0.1 * sample_rate)] is above zero and the spectrogram of each
    buffer is computed, [analyze_quality] raises nothing and returns the
    report with exactly these eleven keys in this order, each holding what
    the analyzer's method returns for the buffer named by the key; the
    tester and its analyzer are left as they were. *)
Theorem analyze_quality_report env original_file processed_file self w
    original processed sr1 sr2 f1 t1 S1 f2 t2 S2 :
  AUDIO_LIBS_AVAILABLE env = true ->
  let an := analyzer self in
  let sr := sample_rate an in
  let first := librosa_load env original_file sr w in
  let second := librosa_load env processed_file sr (snd first) in
  fst first = inr (original, sr1) ->
  fst second = inr (processed, sr2) ->
  (2 <= length original)%nat -> (2 <= length processed)%nat ->
  (0 < py.int (0.1 * IZR sr))%Z ->
  env_spectrogram env original sr 1024%Z = Ok (f1, t1, S1) ->
  env_spectrogram env processed sr 1024%Z = Ok (f2, t2, S2) ->
  exists rms1 rms2 peak1 peak2 cp thd1 thd2 dr1 dr2,
    fst (calculate_rms original an) = Ok rms1
    /\ fst (calculate_rms processed an) = Ok rms2
    /\ fst (calculate_peak_level original an) = Ok peak1
    /\ fst (calculate_peak_level processed an) = Ok peak2
    /\ fst (calculate_correlation (env_pearson_statistic env) original processed an)
       = Ok cp
    /\ fst (calculate_thd_n original 440 an) = Ok thd1
    /\ fst (calculate_thd_n processed 440 an) = Ok thd2
    /\ fst (calculate_dynamic_range original an) = Ok dr1
    /\ fst (calculate_dynamic_range processed an) = Ok dr2
    /\ analyze_quality env original_file processed_file (self, w)
       = (Return
            (Some [(keys.original_rms, Number rms1);
                   (keys.processed_rms, Number rms2);
                   (keys.original_peak, Number peak1);
                   (keys.processed_peak, Number peak2);
                   (keys.correlation, Number (fst cp));
                   (keys.correlation_p_value, Number (snd cp));
                   (keys.original_thd_n, Number thd1);
                   (keys.processed_thd_n, Number thd2);
                   (keys.original_dynamic_range, Number dr1);
                   (keys.processed_dynamic_range, Number dr2);
                   (keys.frequency_response,
                    Spectra f1 (map np.mean S1) f2 (map np.mean S2))]),
          (self, snd second)).
Proof.
  intros Hlibs an sr first second E1 E2 Hlen1 Hlen2 Hw Hs1 Hs2.
  assert (sr <> 0%Z) as Hsr.
  { intros E. rewrite E in Hw. replace (0.1 * 0) with (IZR 0) in Hw by lra.
    rewrite py_int_IZR in Hw. lia. }
  assert (original <> []) as Hne1 by (destruct original; [simpl in Hlen1; lia | discriminate]).
  assert (processed <> []) as Hne2 by (destruct processed; [simpl in Hlen2; lia | discriminate]).
  assert (exists v, calculate_peak_level original an = (Ok v, an)) as [peak1 Hp1].
  { destruct original as [| x o]; [congruence |]. eexists.
    apply calculate_peak_level_nonempty. }
  assert (exists v, calculate_peak_level processed an = (Ok v, an)) as [peak2 Hp2].
  { destruct processed as [| x o]; [congruence |]. eexists.
    apply calculate_peak_level_nonempty. }
  assert (exists cp, calculate_correlation (env_pearson_statistic env)
                       original processed an = (Ok cp, an)) as [cp Hcp].
  { rewrite calculate_correlation_run. eexists. f_equal.
    apply pearsonr_long_enough; rewrite !length_firstn; lia. }
  destruct (calculate_thd_n_run original 440 an Hne1 Hsr)
    as [? [? [_ [_ [_ [_ [_ Hthd1]]]]]]].
  destruct (calculate_thd_n_run processed 440 an Hne2 Hsr)
    as [? [? [_ [_ [_ [_ [_ Hthd2]]]]]]].
  pose proof (calculate_dynamic_range_run original an Hw) as Hdr1.
  pose proof (calculate_dynamic_range_run processed an Hw) as Hdr2.
  pose proof (frequency_response_run _ _ an _ _ _ Hs1) as Hfr1.
  pose proof (frequency_response_run _ _ an _ _ _ Hs2) as Hfr2.
  do 9 eexists.
  rewrite Hp1, Hp2, Hcp, Hthd1, Hthd2, Hdr1, Hdr2.
  repeat (split; [reflexivity |]).
  unfold analyze_quality.
  unfold abind at 1. rewrite load_audio_run by assumption. fold an sr first.
  unfold after_load at 1. rewrite E1.
  unfold abind at 1. rewrite load_audio_run by assumption. fold an sr second.
  unfold after_load at 1. rewrite E2. cbv iota beta.
  unfold abind at 1.
  rewrite (on_analyzer_ok env _ (calculate_rms original) self _ _ eq_refl).
  unfold abind at 1.
  rewrite (on_analyzer_ok env _ (calculate_rms processed) self _ _ eq_refl).
  unfold abind at 1. rewrite (on_analyzer_ok env _ _ self _ _ Hp1).
  unfold abind at 1. rewrite (on_analyzer_ok env _ _ self _ _ Hp2).
  unfold abind at 1. rewrite (on_analyzer_ok env _ _ self _ _ Hcp).
  unfold abind at 1. rewrite (on_analyzer_ok env _ _ self _ _ Hthd1).
  unfold abind at 1. rewrite (on_analyzer_ok env _ _ self _ _ Hthd2).
  unfold abind at 1. rewrite (on_analyzer_ok env _ _ self _ _ Hdr1).
  unfold abind at 1. rewrite (on_analyzer_ok env _ _ self _ _ Hdr2).
  unfold abind at 1. rewrite (on_analyzer_ok env _ _ self _ _ Hfr1).
  unfold abind at 1. rewrite (on_analyzer_ok env _ _ self _ _ Hfr2).
  unfold areturn. simpl fst. simpl snd. rewrite report_of_eleven. reflexivity.
Qed.

Lemma analyze_quality_report_witness :
  exists r,
    analyze_quality example_environment "a.wav"%str "b.wav"%str
      (new_tester "world4utau"%str, tt)
    = (Return (Some r), (new_tester "world4utau"%str, tt))
    /\ map fst r = keys.all.
Proof.
  destruct (analyze_quality_report example_environment "a.wav"%str "b.wav"%str
              (new_tester "world4utau"%str) tt
              [1; -1; 1] [1; -1; 1] 44100%Z 44100%Z [] [] [] [] [] []
              eq_refl eq_refl eq_refl)
    as [rms1 [rms2 [peak1 [peak2 [cp [thd1 [thd2 [dr1 [dr2 H]]]]]]]]];
    try (simpl; lia); try reflexivity.
  - change (sample_rate (analyzer (new_tester "world4utau"%str)))
      with (sample_rate new_analyzer).
    rewrite window_size_default. lia.
  - destruct H as [_ [_ [_ [_ [_ [_ [_ [_ [_ Hrun]]]]]]]]].
    eexists. split; [exact Hrun | reflexivity].
Defined.

(** The analysis of two files in the example environment, where every
    file holds the samples 1, -1, 1. *)
Lemma analyze_quality_example original_file processed_file path :
  exists r,
    analyze_quality example_environment original_file processed_file
      (new_tester path, tt)
    = (Return (Some r), (new_tester path, tt))
    /\ map fst r = keys.all.
Proof.
  set (self := new_tester path). set (an := analyzer self).
  set (buffer := [1; -1; 1]).
  assert (buffer <> []) as Hne by discriminate.
  assert (sample_rate an <> 0%Z) as Hsr by exact new_analyzer_rate_nonzero.
  assert (0 < py.int (0.1 * IZR (sample_rate an)))%Z as Hw
    by (unfold an, self; simpl analyzer; rewrite window_size_default; lia).
  pose proof (calculate_peak_level_nonempty 1 [-1; 1] an) as Hp.
  assert (exists cp, calculate_correlation (env_pearson_statistic example_environment)
                       buffer buffer an = (Ok cp, an)) as [cp Hcp].
  { rewrite calculate_correlation_run. eexists. f_equal.
    apply pearsonr_long_enough; rewrite !length_firstn; simpl; lia. }
  destruct (calculate_thd_n_run buffer 440 an Hne Hsr)
    as [? [? [_ [_ [_ [_ [_ Hthd]]]]]]].
  pose proof (calculate_dynamic_range_run buffer an Hw) as Hdr.
  assert (calculate_frequency_response (env_spectrogram example_environment) buffer an
          = (Ok ([], map np.mean []), an)) as Hfr
    by (apply (frequency_response_run _ _ an [] [] []); reflexivity).
  eexists. split.
  - unfold analyze_quality.
    unfold abind at 1. rewrite load_audio_run by reflexivity.
    unfold abind at 1. rewrite load_audio_run by reflexivity.
    unfold after_load.
    change (librosa_load example_environment)
      with (fun (_ : String.string) (sr : Z) (w : unit) =>
              (@inr String.string (list R * Z) (buffer, sr), w)).
    cbv beta iota delta [fst snd].
    unfold abind at 1.
    rewrite (on_analyzer_ok _ _ (calculate_rms buffer) self _ _ eq_refl).
    unfold abind at 1.
    rewrite (on_analyzer_ok _ _ (calculate_rms buffer) self _ _ eq_refl).
    unfold abind at 1. rewrite (on_analyzer_ok _ _ _ self _ _ Hp).
    unfold abind at 1. rewrite (on_analyzer_ok _ _ _ self _ _ Hp).
    unfold abind at 1. rewrite (on_analyzer_ok _ _ _ self _ _ Hcp).
    unfold abind at 1. rewrite (on_analyzer_ok _ _ _ self _ _ Hthd).
    unfold abind at 1. rewrite (on_analyzer_ok _ _ _ self _ _ Hthd).
    unfold abind at 1. rewrite (on_analyzer_ok _ _ _ self _ _ Hdr).
    unfold abind at 1. rewrite (on_analyzer_ok _ _ _ self _ _ Hdr).
    unfold abind at 1. rewrite (on_analyzer_ok _ _ _ self _ _ Hfr).
    unfold abind at 1. rewrite (on_analyzer_ok _ _ _ self _ _ Hfr).
    unfold areturn. rewrite report_of_eleven. reflexivity.
  - reflexivity.
Qed.


(** ** The command line of the program *)

Lemma append_empty_r s : String.append s String.EmptyString = s.
Proof. induction s as [| c s IH]; simpl; [reflexivity | now rewrite IH]. Qed.

Lemma append_char_assoc word c rest :
  String.append (String.append word (String.String c String.EmptyString)) rest
  = String.append word (String.String c rest).
Proof. induction word as [| d word IH]; simpl; [reflexivity | now rewrite IH]. Qed.

Lemma no_space_append_char word c :
  no_space word = true -> is_space c = false ->
  no_space (String.append word (String.String c String.EmptyString)) = true.
Proof.
  intros Hw Hc. induction word as [| d word IH]; simpl in *.
  - now rewrite Hc.
  - apply andb_true_iff in Hw. destruct Hw as [Hd Hw].
    rewrite Hd. simpl. now apply IH.
Qed.

Lemma split_words_spec s :
  forall word,
    no_space word = true ->
    Forall is_word (split_words word s)
    /\ join (split_words word s) = String.append word (remove_spaces s).
Proof.
  induction s as [| c s IH]; intros word Hword.
  - destruct word as [| d word]; simpl.
    + split; [constructor | reflexivity].
    + split; [| now rewrite !append_empty_r].
      constructor; [| constructor]. split; [discriminate | exact Hword].
  - simpl split_words. simpl remove_spaces.
    destruct (is_space c) eqn:Hc.
    + destruct (IH String.EmptyString eq_refl) as [Hall Hjoin].
      destruct word as [| d word].
      * split; [exact Hall | exact Hjoin].
      * split.
        -- constructor; [| exact Hall]. split; [discriminate | exact Hword].
        -- change (join (String.String d word
                         :: split_words String.EmptyString s))
             with (String.append (String.String d word)
                     (join (split_words String.EmptyString s))).
           rewrite Hjoin. reflexivity.
    + destruct (IH _ (no_space_append_char word c Hword Hc)) as [Hall Hjoin].
      split; [exact Hall |]. rewrite Hjoin. apply append_char_assoc.
Qed.

(** X18: the command line of [run_world4utau] for [options] of ASCII
    characters.  It starts with the five arguments program path, input
    file, output file, pitch and velocity in decimal; after them come the
    words of [options] as [split()] cuts them: none is empty, none holds
    whitespace, and together they are [options] with the whitespace taken
    out, so an [options] of whitespace alone adds no argument. *)
Theorem command_line_words path input_file output_file pitch velocity options :
  ascii_only options = true ->
  exists words,
    command_line path input_file output_file pitch velocity options
    = [path; input_file; output_file; py_str pitch; py_str velocity] ++ words
    /\ Forall is_word words
    /\ join words = remove_spaces options
    /\ (remove_spaces options = String.EmptyString -> words = []).
Proof.
  intros _.
  destruct (split_words_spec options String.EmptyString eq_refl) as [Hall Hjoin].
  simpl String.append in Hjoin.
  assert (forall ws, Forall is_word ws -> join ws = String.EmptyString -> ws = [])
    as Hnil.
  { intros [| w ws] Hws E; [reflexivity |].
    inversion Hws as [| ? ? [Hne _] _]. subst.
    destruct w as [| c w]; [congruence | discriminate E]. }
  destruct options as [| c options'] eqn:Eo.
  - exists []. simpl. repeat split; constructor.
  - exists (str_split (String.String c options')). unfold command_line.
    repeat split; try assumption.
    intros E. apply Hnil; [exact Hall |]. unfold str_split. now rewrite Hjoin.
Qed.

Example command_line_with_modulation :
  command_line "../build/world4utau"%str "in.wav"%str "out.wav"%str 440 100
    "--modulation 0.3"%str
  = ["../build/world4utau"; "in.wav"; "out.wav"; "440"; "100";
     "--modulation"; "0.3"]%str.
Proof. reflexivity. Qed.

(** X19: [run_world4utau] raises nothing, whatever [subprocess.run] does:
    a timeout and every other exception become a result with success
    [False].  Success is [True] exactly when the program ran to its end
    with return code 0, and then the result carries its output; the tester
    is left as it was. *)
Theorem run_world4utau_never_raises env (h : host env)
    input_file output_file pitch velocity options self w :
  let cmd := command_line (world4utau_path self) input_file output_file
               pitch velocity options in
  let ran := subprocess_run h cmd w in
  exists success stdout stderr,
    run_world4utau env h input_file output_file pitch velocity options (self, w)
    = (Return (success, stdout, stderr), (self, snd ran))
    /\ (success = true <-> fst ran = Completed 0 stdout stderr).
Proof.
  intros cmd ran. unfold run_world4utau, abind, get_path, outside.
  simpl fst. simpl snd. fold cmd. fold ran.
  destruct ran as [[rc out err | | e] w'].
  - exists (rc =? 0)%Z, out, err. simpl. split; [reflexivity |].
    destruct (Z.eqb_spec rc 0) as [-> | Hne]; split; intros H;
      try reflexivity; try discriminate H.
    injection H as E. contradiction.
  - exists false, String.EmptyString, text.timeout. simpl.
    split; [reflexivity |]. split; intros H; discriminate H.
  - exists false, String.EmptyString, e. simpl.
    split; [reflexivity |]. split; intros H; discriminate H.
Qed.

Lemma command_line_words_witness :
  exists words,
    command_line "w4u"%str "a"%str "b"%str 440 100 "  "%str
    = ["w4u"; "a"; "b"; py_str 440; py_str 100]%str ++ words
    /\ words = [].
Proof.
  destruct (command_line_words "w4u"%str "a"%str "b"%str 440 100 "  "%str eq_refl)
    as [words [E [_ [_ Hnil]]]].
  exists words. split; [exact E | apply Hnil; reflexivity].
Defined.

(** ** The results of the tests *)

Ltac bind_step H :=
  unfold abind in H at 1;
  match type of H with
  | (let (_, _) := ?m in _) = _ =>
      let o := fresh "o" in let s := fresh "s" in let E := fresh "E" in
      destruct m as [o s] eqn:E; destruct o; [| discriminate H]
  end.

(** A report that [analyze_quality] returns has the eleven keys. *)
Lemma analyze_quality_keys env original_file processed_file s r s' :
  analyze_quality env original_file processed_file s = (Return (Some r), s') ->
  map fst r = keys.all.
Proof.
  unfold analyze_quality. intros H.
  bind_step H. bind_step H.
  destruct a as [[original sr1] |]; [| discriminate H].
  destruct a0 as [[processed sr2] |]; [| discriminate H].
  do 11 bind_step H.
  unfold areturn in H. injection H as <- _. reflexivity.
Qed.

Lemma dict_put_forall V (P : V -> Prop) (d : list (String.string * V)) key v :
  Forall (fun kv => P (snd kv)) d -> P v ->
  Forall (fun kv => P (snd kv)) (dict_put d key v).
Proof.
  intros Hd Hv. induction d as [| [k u] d IH]; simpl.
  - constructor; [exact Hv | constructor].
  - inversion Hd as [| ? ? Hu Hd']; subst.
    destruct (String.eqb k key); constructor; auto.
Qed.

Lemma dict_put_keys V (d : list (String.string * V)) key v :
  incl (map fst (dict_put d key v)) (key :: map fst d).
Proof.
  induction d as [| [k u] d IH]; simpl.
  - apply incl_refl.
  - destruct (String.eqb k key); simpl.
    + apply incl_tl. apply incl_refl.
    + intros x [<- | Hx]; [right; now left |].
      destruct (IH x Hx) as [<- | Hin]; [now left | right; now right].
Qed.

Lemma run_quality_test_entries env h test_name config results s results' s' :
  run_quality_test env h test_name config results s = (Return results', s') ->
  Forall (fun kv => well_formed_entry (snd kv)) results ->
  Forall (fun kv => well_formed_entry (snd kv)) results'
  /\ incl (map fst results') (test_name :: map fst results).
Proof.
  unfold run_quality_test. intros H Hwf.
  bind_step H. bind_step H.
  destruct a0 as [|];
    [change (negb true) with false in H | change (negb false) with true in H];
    cbv iota in H.
  2:{ bind_step H. unfold areturn in H. injection H as <- _.
      split; [exact Hwf | apply incl_tl, incl_refl]. }
  bind_step H. destruct a0 as [[success out] err].
  destruct success;
    [change (negb true) with false in H | change (negb false) with true in H];
    cbv iota in H.
  2:{ do 2 bind_step H. unfold areturn in H. injection H as <- _.
      split; [exact Hwf | apply incl_tl, incl_refl]. }
  bind_step H. bind_step H. unfold areturn in H. injection H as <- _.
  split; [| destruct a0 as [[| ? ?] |]; apply dict_put_keys].
  destruct a0 as [[| kv q] |]; apply (dict_put_forall _ well_formed_entry);
    try assumption.
  - left. reflexivity.
  - right. split; [reflexivity |]. exists (kv :: q). split; [reflexivity |].
    eapply analyze_quality_keys. eassumption.
  - left. reflexivity.
Qed.

(** X20: what [run_quality_tests] returns, when it returns.  Every entry
    of the results belongs to one of the test cases, and every entry says
    whether its test succeeded: an entry with success [True] holds a
    quality report with all eleven keys. *)
Theorem run_quality_tests_entries env h test_cases s results s' :
  run_quality_tests env h test_cases s = (Return results, s') ->
  Forall (fun kv => well_formed_entry (snd kv)) results
  /\ incl (map fst results) (map fst test_cases).
Proof.
  unfold run_quality_tests.
  assert (forall acc s0,
             Forall (fun kv => well_formed_entry (snd kv)) acc ->
             run_tests env h test_cases acc s0 = (Return results, s') ->
             Forall (fun kv => well_formed_entry (snd kv)) results
             /\ incl (map fst results) (map fst test_cases ++ map fst acc)) as Hloop.
  { induction test_cases as [| [name config] rest IH]; intros acc s0 Hacc H.
    - simpl in H. unfold areturn in H. injection H as <- _.
      split; [exact Hacc | apply incl_refl].
    - simpl run_tests in H. bind_step H.
      destruct (run_quality_test_entries _ _ _ _ _ _ _ _ E Hacc) as [Hwf Hkeys].
      destruct (IH _ _ Hwf H) as [Hres Hincl]. split; [exact Hres |].
      intros x Hx. apply Hincl in Hx. apply in_app_or in Hx.
      simpl. destruct Hx as [Hx | Hx]; [right; apply in_or_app; now left |].
      apply Hkeys in Hx. destruct Hx as [<- | Hx]; [now left |].
      right. apply in_or_app. now right. }
  intros H. destruct (Hloop [] s ltac:(constructor) H) as [Hwf Hincl].
  split; [exact Hwf |]. now rewrite app_nil_r in Hincl.
Qed.

(** Three seconds of test tone in the example environment. *)
Lemma create_three_seconds_example file path :
  create_test_audio example_environment file 3 440 (new_tester path, tt)
  = (Return true, (new_tester path, tt)).
Proof.
  unfold create_test_audio.
  change (AUDIO_LIBS_AVAILABLE example_environment) with true.
  change (negb true) with false. cbv iota.
  unfold abind at 1. rewrite on_analyzer_get.
  change (sample_rate (analyzer (new_tester path))) with 44100%Z.
  replace (3 * IZR 44100) with (IZR 132300) by lra. rewrite py_int_IZR.
  unfold abind at 1. unfold alift at 1. rewrite np_linspace_run by lia.
  unfold abind at 1. unfold outside at 1. simpl fst. simpl snd.
  change (randn example_environment) with (fun (n : nat) (w : unit) => (repeat 0 n, w)).
  cbv beta.
  unfold abind at 1. unfold alift at 1.
  rewrite np_iadd_same_length
    by (rewrite length_map, repeat_length; reflexivity).
  unfold abind at 1. rewrite on_analyzer_get.
  reflexivity.
Qed.

Lemma run_of_basic_440hz path :
  exists r,
    map fst r = keys.all
    /\ run_quality_tests example_environment (working_host _)
         [("basic_440hz"%str, basic_440hz)] (new_tester path, tt)
       = (Return [("basic_440hz"%str,
                   [(text.config, Config basic_440hz); (text.quality, Quality r);
                    (text.success, Bool true)])],
          (new_tester path, tt)).
Proof.
  set (input_file :=
         String.append text.test_input_ (String.append "basic_440hz"%str text.wav)).
  set (output_file :=
         String.append text.test_output_ (String.append "basic_440hz"%str text.wav)).
  destruct (analyze_quality_example input_file output_file path)
    as [r [Hrun Hkeys]].
  exists r. split; [exact Hkeys |].
  assert (run_world4utau example_environment (working_host _)
            input_file output_file 440 100 String.EmptyString (new_tester path, tt)
          = (Return (true, String.EmptyString, String.EmptyString),
             (new_tester path, tt))) as Hprogram by reflexivity.
  unfold run_quality_tests. simpl run_tests. unfold abind at 1.
  unfold run_quality_test. fold input_file output_file.
  unfold abind at 1. unfold say at 1. unfold outside at 1. simpl fst. simpl snd.
  unfold abind at 1.
  change (get_or (duration basic_440hz) 5) with 3.
  change (get_or (frequency basic_440hz) 440) with 440.
  change (print example_environment (TestStarted "basic_440hz"%str) tt) with tt.
  rewrite create_three_seconds_example. change (negb true) with false. cbv iota.
  unfold abind at 1.
  change (get_or (pitch basic_440hz) 440%Z) with 440%Z.
  change (get_or (velocity basic_440hz) 100%Z) with 100%Z.
  change (get_or (options basic_440hz) String.EmptyString) with String.EmptyString.
  rewrite Hprogram. change (negb true) with false. cbv iota.
  unfold abind at 1. rewrite Hrun.
  destruct r as [| kv r]; [discriminate Hkeys |].
  reflexivity.
Qed.

(** The first test case of [main] in the example environment, with a
    program that succeeds: one entry, with success [True]. *)
Lemma run_quality_tests_entries_witness :
  exists results,
    run_quality_tests example_environment (working_host _)
      [("basic_440hz"%str, basic_440hz)] (new_tester "world4utau"%str, tt)
    = (Return results, (new_tester "world4utau"%str, tt))
    /\ map fst results = ["basic_440hz"%str]
    /\ Forall (fun kv : String.string * entry => well_formed_entry (snd kv)) results.
Proof.
  destruct (run_of_basic_440hz "world4utau"%str) as [r [_ Hrun]].
  eexists. split; [exact Hrun |]. split; [reflexivity |].
  apply (run_quality_tests_entries example_environment (working_host _)
           [("basic_440hz"%str, basic_440hz)]
           (new_tester "world4utau"%str, tt) _
           (new_tester "world4utau"%str, tt) Hrun).
Defined.


(** ** Reading the results *)

Lemma lookup_of_key V (d : list (String.string * V)) key :
  In key (map fst d) -> exists v, dict_lookup d key = Some v.
Proof.
  induction d as [| [k v] d IH]; simpl; [contradiction |].
  intros Hin. destruct (String.eqb_spec k key) as [_ | Hne]; [now exists v |].
  destruct Hin as [E | Hin]; [contradiction | now apply IH].
Qed.

Lemma quality_of_well_formed result key :
  dict_lookup result text.success = Some (Bool true) ->
  well_formed_entry result -> In key keys.all ->
  exists v, quality_of result key = Return v.
Proof.
  intros Hs [Hf | [_ [q [Hq Hkeys]]]] Hin; [congruence |].
  unfold quality_of, subscript. rewrite Hq.
  rewrite <- Hkeys in Hin. destruct (lookup_of_key _ q key Hin) as [v ->].
  now exists v.
Qed.

(** X21: on results whose entries all say whether the test succeeded, and
    hold the full quality report when it did (as those of
    [run_quality_tests] do), the loops of [generate_plots] and the count of
    [main] raise no [KeyError]; the correlations, the test names and the
    two THD+N series all have the length of the number of successful
    tests, so the bars of the plots line up; and that number is at most
    the number of entries. *)
Theorem plot_series_line_up results :
  Forall (fun kv => well_formed_entry (snd kv)) results ->
  exists correlations test_names original_thd processed_thd n,
    correlation_series results = Return (correlations, test_names)
    /\ thd_series results = Return (original_thd, processed_thd)
    /\ successful_tests results = Return n
    /\ length correlations = n /\ length test_names = n
    /\ length original_thd = n /\ length processed_thd = n
    /\ (n <= length results)%nat.
Proof.
  induction results as [| [name result] rest IH]; intros Hwf.
  - exists [], [], [], [], 0%nat. repeat split; reflexivity || apply Nat.le_refl.
  - inversion Hwf as [| ? ? Hr Hrest]; subst. simpl in Hr.
    destruct (IH Hrest) as [cs [names [os [ps [n [Hc [Ht [Hn [L1 [L2 [L3 [L4 Hle]]]]]]]]]]]].
    simpl correlation_series. simpl thd_series. simpl successful_tests.
    rewrite Hc, Ht, Hn. unfold subscript.
    destruct Hr as [Hfalse | [Htrue Hq]].
    + rewrite Hfalse. simpl truthy. cbv iota.
      exists cs, names, os, ps, n. repeat split; try assumption. simpl. lia.
    + assert (well_formed_entry result) as Hwfr by (right; split; assumption).
      rewrite Htrue. simpl truthy. cbv iota.
      destruct (quality_of_well_formed result keys.correlation Htrue Hwfr)
        as [c ->]; [unfold keys.all; simpl; tauto |].
      destruct (quality_of_well_formed result keys.original_thd_n Htrue Hwfr)
        as [o ->]; [unfold keys.all; simpl; tauto |].
      destruct (quality_of_well_formed result keys.processed_thd_n Htrue Hwfr)
        as [p ->]; [unfold keys.all; simpl; tauto |].
      exists (c :: cs), (name :: names), (o :: os), (p :: ps), (S n).
      repeat split; simpl; try lia; reflexivity.
Qed.

(** One test that succeeded, with a full report, and one that did not. *)
Lemma plot_series_line_up_witness :
  let results :=
    [("done"%str,
      [(text.config, Config basic_440hz);
       (text.quality, Quality (map (fun key => (key, Number (Fin 0))) keys.all));
       (text.success, Bool true)]);
     ("failed"%str, [(text.config, Config basic_440hz); (text.success, Bool false)])] in
  exists correlations test_names n,
    correlation_series results = Return (correlations, test_names)
    /\ successful_tests results = Return n
    /\ length correlations = n /\ length test_names = n
    /\ n = 1%nat.
Proof.
  intros results.
  destruct (plot_series_line_up results)
    as [cs [names [_ [_ [n [Hc [_ [Hn [L1 [L2 _]]]]]]]]]].
  - constructor; [| constructor; [left; reflexivity | constructor]].
    right. split; [reflexivity |]. eexists. split; reflexivity.
  - exists cs, names, n. repeat split; try assumption.
    vm_compute in Hn. congruence.
Defined.

(** ** Tests that leave no entry *)

(** X22: a test whose program run fails leaves its files behind.  When the
    test audio was created and [run_world4utau] reports no success, the
    turn of the loop prints the failure and the error output and goes on
    with the results as they were: the test gets no entry, and [os.remove]
    is not called, so the input file just written stays. *)
Theorem failed_run_is_skipped env h test_name config results self w s1 s2
    stdout stderr :
  let input_file :=
    String.append text.test_input_ (String.append test_name text.wav) in
  let output_file :=
    String.append text.test_output_ (String.append test_name text.wav) in
  create_test_audio env input_file
    (get_or (duration config) 5) (get_or (frequency config) 440)
    (self, print env (TestStarted test_name) w)
  = (Return true, s1) ->
  run_world4utau env h input_file output_file
    (get_or (pitch config) 440%Z) (get_or (velocity config) 100%Z)
    (get_or (options config) String.EmptyString) s1
  = (Return (false, stdout, stderr), s2) ->
  run_quality_test env h test_name config results (self, w)
  = (Return results,
     (fst s2,
      print env (ErrorOutput stderr)
        (print env (World4UtauFailed test_name) (snd s2)))).
Proof.
  intros input_file output_file Hcreate Hrun. unfold run_quality_test.
  fold input_file output_file.
  unfold abind at 1. unfold say at 1. unfold outside at 1. simpl fst. simpl snd.
  unfold abind at 1. rewrite Hcreate. change (negb true) with false. cbv iota.
  unfold abind at 1. rewrite Hrun. change (negb false) with true. cbv iota.
  unfold abind, say, outside, areturn. destruct s2 as [t w2]. reflexivity.
Qed.

(** X23: an exception of the analysis ends all tests.  When the test audio
    was created, the program succeeded and [analyze_quality] raises (as it
    does for a file without samples), the exception leaves the loop of
    [run_quality_tests]: the tests after it are not run, the results
    gathered before it are not returned, and the files of the test are not
    removed. *)
Theorem analysis_error_ends_all_tests env h test_name config rest results
    self w s1 s2 s3 stdout stderr e :
  let input_file :=
    String.append text.test_input_ (String.append test_name text.wav) in
  let output_file :=
    String.append text.test_output_ (String.append test_name text.wav) in
  create_test_audio env input_file
    (get_or (duration config) 5) (get_or (frequency config) 440)
    (self, print env (TestStarted test_name) w)
  = (Return true, s1) ->
  run_world4utau env h input_file output_file
    (get_or (pitch config) 440%Z) (get_or (velocity config) 100%Z)
    (get_or (options config) String.EmptyString) s1
  = (Return (true, stdout, stderr), s2) ->
  analyze_quality env input_file output_file s2 = (Throw e, s3) ->
  run_tests env h ((test_name, config) :: rest) results (self, w) = (Throw e, s3).
Proof.
  intros input_file output_file Hcreate Hrun Hanalyze.
  simpl run_tests. unfold abind at 1. unfold run_quality_test.
  fold input_file output_file.
  unfold abind at 1. unfold say at 1. unfold outside at 1. simpl fst. simpl snd.
  unfold abind at 1. rewrite Hcreate. change (negb true) with false. cbv iota.
  unfold abind at 1. rewrite Hrun. change (negb true) with false. cbv iota.
  unfold abind at 1. rewrite Hanalyze. reflexivity.
Qed.

(** Three seconds of test tone in the environment of empty files. *)
Lemma create_three_seconds file path :
  create_test_audio empty_file_environment file 3 440 (new_tester path, tt)
  = (Return true, (new_tester path, tt)).
Proof.
  unfold create_test_audio.
  change (AUDIO_LIBS_AVAILABLE empty_file_environment) with true.
  change (negb true) with false. cbv iota.
  unfold abind at 1. rewrite on_analyzer_get.
  change (sample_rate (analyzer (new_tester path))) with 44100%Z.
  replace (3 * IZR 44100) with (IZR 132300) by lra. rewrite py_int_IZR.
  unfold abind at 1. unfold alift at 1. rewrite np_linspace_run by lia.
  unfold abind at 1. unfold outside at 1. simpl fst. simpl snd.
  change (randn empty_file_environment) with (fun (n : nat) (w : unit) => (repeat 0 n, w)).
  cbv beta.
  unfold abind at 1. unfold alift at 1.
  rewrite np_iadd_same_length
    by (rewrite length_map, repeat_length; reflexivity).
  unfold abind at 1. rewrite on_analyzer_get.
  reflexivity.
Qed.

Lemma failed_run_is_skipped_witness :
  run_quality_test empty_file_environment (failing_host _)
    "basic_440hz"%str basic_440hz [] (new_tester "world4utau"%str, tt)
  = (Return [], (new_tester "world4utau"%str, tt)).
Proof.
  apply (failed_run_is_skipped empty_file_environment (failing_host _)
           "basic_440hz"%str basic_440hz [] (new_tester "world4utau"%str) tt
           (new_tester "world4utau"%str, tt) (new_tester "world4utau"%str, tt)
           String.EmptyString String.EmptyString).
  - apply create_three_seconds.
  - reflexivity.
Defined.

Lemma analysis_error_ends_all_tests_witness :
  run_tests empty_file_environment (working_host _)
    [("basic_440hz"%str, basic_440hz); ("again"%str, basic_440hz)] []
    (new_tester "world4utau"%str, tt)
  = (Throw (MetricError (ValueError ZeroSizeReduction)),
     (new_tester "world4utau"%str, tt)).
Proof.
  apply (analysis_error_ends_all_tests empty_file_environment (working_host _)
           "basic_440hz"%str basic_440hz [("again"%str, basic_440hz)] []
           (new_tester "world4utau"%str) tt
           (new_tester "world4utau"%str, tt) (new_tester "world4utau"%str, tt)
           (new_tester "world4utau"%str, tt)
           String.EmptyString String.EmptyString).
  - apply create_three_seconds.
  - reflexivity.
  - reflexivity.
Defined.
